(** * plot_latency: parsing a load-test report and rendering its latency chart

    A shallow embedding of [tools/loadgen/plot_latency.py] and the properties
    of its parse-then-render pipeline.

    Text is modelled as [string]; every [ascii] stands for the Unicode code
    point of the same number (0..255).  The character classes below are the
    ones Python uses on that range. *)

From Stdlib Require Import ZArith NArith List String Ascii Bool Lia.
Import ListNotations.
Open Scope string_scope.

(** ** Characters and the [str] methods the script calls *)

Module Str.

Definition code (c : ascii) : N := N_of_ascii c.

(** [str.isspace], which is also the regex class [\s] and the separator set
    of [str.split()] and [str.strip()]. *)
Definition is_space (c : ascii) : bool :=
  let n := code c in
  (((9 <=? n) && (n <=? 13)) || ((28 <=? n) && (n <=? 32))
   || (n =? 133) || (n =? 160))%N.

(** The regex class [\d]. *)
Definition is_digit (c : ascii) : bool :=
  let n := code c in ((48 <=? n) && (n <=? 57))%N.

(** The regex class [[\d.]]. *)
Definition is_digit_or_dot (c : ascii) : bool :=
  is_digit c || Ascii.eqb c ".".

Definition is_empty (s : string) : bool :=
  match s with EmptyString => true | String _ _ => false end.

(** [c in s] for a one-character [c]. *)
Fixpoint contains (c : ascii) (s : string) : bool :=
  match s with
  | EmptyString => false
  | String a s' => Ascii.eqb a c || contains c s'
  end.

(** [s.split(c)] for a one-character separator: always at least one piece. *)
Fixpoint split_on (c : ascii) (s : string) : list string :=
  match s with
  | EmptyString => [EmptyString]
  | String a s' =>
      if Ascii.eqb a c then EmptyString :: split_on c s'
      else match split_on c s' with
           | h :: t => String a h :: t
           | [] => [String a EmptyString]
           end
  end.

(** Longest prefix of characters satisfying [p], and what follows it. *)
Fixpoint span (p : ascii -> bool) (s : string) : string * string :=
  match s with
  | EmptyString => (EmptyString, EmptyString)
  | String a s' =>
      if p a then let (h, t) := span p s' in (String a h, t)
      else (EmptyString, s)
  end.

Definition lstrip_by (p : ascii -> bool) (s : string) : string :=
  snd (span p s).

Fixpoint rstrip_by (p : ascii -> bool) (s : string) : string :=
  match s with
  | EmptyString => EmptyString
  | String a s' =>
      let r := rstrip_by p s' in
      if is_empty r && p a then EmptyString else String a r
  end.

(** [s.strip()] *)
Definition strip (s : string) : string :=
  rstrip_by is_space (lstrip_by is_space s).

(** [s.rstrip(c)] for a one-character [c]. *)
Definition rstrip (c : ascii) (s : string) : string :=
  rstrip_by (Ascii.eqb c) s.

(** [s.split()]: the maximal runs of non-space characters, in order. *)
Fixpoint split (s : string) : list string :=
  match s with
  | EmptyString => []
  | String a s' =>
      if is_space a then split s'
      else match s' with
           | EmptyString => [String a EmptyString]
           | String b _ =>
               if is_space b then String a EmptyString :: split s'
               else match split s' with
                    | h :: t => String a h :: t
                    | [] => [String a EmptyString]
                    end
           end
  end.

(** [s] without its prefix [p], when [s] starts with [p]. *)
Fixpoint drop_prefix (p s : string) : option string :=
  match p with
  | EmptyString => Some s
  | String a p' =>
      match s with
      | EmptyString => None
      | String b s' => if Ascii.eqb a b then drop_prefix p' s' else None
      end
  end.

(** First occurrence of [needle]: the text before it and the text after. *)
Fixpoint find (needle s : string) : option (string * string) :=
  match drop_prefix needle s with
  | Some rest => Some (EmptyString, rest)
  | None =>
      match s with
      | EmptyString => None
      | String a s' =>
          match find needle s' with
          | Some (pre, post) => Some (String a pre, post)
          | None => None
          end
      end
  end.

Definition lower (c : ascii) : ascii :=
  let n := code c in
  if ((65 <=? n) && (n <=? 90))%N then ascii_of_N (n + 32) else c.

Fixpoint lowercase (s : string) : string :=
  match s with
  | EmptyString => EmptyString
  | String a s' => String (lower a) (lowercase s')
  end.

Fixpoint all (p : ascii -> bool) (s : string) : bool :=
  match s with
  | EmptyString => true
  | String a s' => p a && all p s'
  end.

End Str.

(** ** Exceptions *)

Inductive exn : Type :=
| ValueError
| IndexError
| OSError
| SystemExit (status : Z).

(** [except Exception] catches everything here but [SystemExit]. *)
Definition is_Exception (e : exn) : bool :=
  match e with SystemExit _ => false | _ => true end.

Inductive result (A : Type) : Type :=
| Ok (a : A)
| Raise (e : exn).
Arguments Ok {A} a.
Arguments Raise {A} e.

Definition rbind {A B} (r : result A) (k : A -> result B) : result B :=
  match r with Ok a => k a | Raise e => Raise e end.

Notation "x <- r ;; k" := (rbind r (fun x => k))
  (at level 61, r at next level, right associativity).

(** [try: body except ValueError: handler] *)
Definition try_except_ValueError {A} (body handler : result A) : result A :=
  match body with
  | Raise ValueError => handler
  | other => other
  end.

(** [l[i]] *)
Definition index {A} (l : list A) (i : nat) : result A :=
  match nth_error l i with Some a => Ok a | None => Raise IndexError end.

(** ** Numbers: binary64 floats and the builtins [float] and [int] *)

Module Float.

(** A double is NaN, an infinity, or [(-1)^neg * m * 2^e] with [0 <= m < 2^53]
    and [-1074 <= e <= 971]; [m < 2^52] only at [e = -1074] (zero and the
    subnormals), so that every finite double has one representation per sign. *)
Inductive pyfloat : Type :=
| Nan
| Inf (neg : bool)
| Fin (neg : bool) (m : Z) (e : Z).

Definition emin : Z := -1074.
Definition emax : Z := 971.

(** The double nearest to [n / d] (ties to even) for [0 <= n], [0 < d]. *)
Definition round_ratio (neg : bool) (n d : Z) : pyfloat :=
  if (n =? 0)%Z then Fin neg 0 emin
  else
    let e0 := (Z.log2 n - Z.log2 d - 52)%Z in
    let quot (e : Z) :=
      (if 0 <=? e then n / (d * 2 ^ e) else (n * 2 ^ (- e)) / d)%Z in
    let e1 := (if quot (e0 - 1) <? 2 ^ 53 then e0 - 1 else e0)%Z in
    let e := Z.max e1 emin in
    let num := (if 0 <=? e then n else n * 2 ^ (- e))%Z in
    let den := (if 0 <=? e then d * 2 ^ e else d)%Z in
    let q := (num / den)%Z in
    let r := (num mod den)%Z in
    let q' :=
      (if (den <? 2 * r) || ((2 * r =? den) && Z.odd q) then q + 1 else q)%Z in
    let '(m, e') := (if q' =? 2 ^ 53 then (2 ^ 52, e + 1) else (q', e))%Z in
    if (emax <? e')%Z then Inf neg else Fin neg m e'.

(** [m * 10^e10] as a double. *)
Definition of_decimal (neg : bool) (m e10 : Z) : pyfloat :=
  if (0 <=? e10)%Z then round_ratio neg (m * 10 ^ e10) 1
  else round_ratio neg m (10 ^ (- e10)).

Definition of_Z (z : Z) : pyfloat :=
  round_ratio (z <? 0)%Z (Z.abs z) 1.

(** [v * 2^1074], an integer for every finite double: the order of the
    finite doubles is the order of these. *)
Definition scaled (neg : bool) (m e : Z) : Z :=
  let a := (m * 2 ^ (e - emin))%Z in if neg then (- a)%Z else a.

(** [x == y] *)
Definition eqb (x y : pyfloat) : bool :=
  match x, y with
  | Fin s1 m1 e1, Fin s2 m2 e2 => (scaled s1 m1 e1 =? scaled s2 m2 e2)%Z
  | Inf s1, Inf s2 => Bool.eqb s1 s2
  | _, _ => false
  end.

(** [x < y] *)
Definition ltb (x y : pyfloat) : bool :=
  match x, y with
  | Nan, _ | _, Nan => false
  | Inf s1, Inf s2 => s1 && negb s2
  | Inf s1, Fin _ _ _ => s1
  | Fin _ _ _, Inf s2 => negb s2
  | Fin s1 m1 e1, Fin s2 m2 e2 => (scaled s1 m1 e1 <? scaled s2 m2 e2)%Z
  end.

(** [x <= y] *)
Definition leb (x y : pyfloat) : bool := ltb x y || eqb x y.

Definition pos_zero : pyfloat := Fin false 0 emin.

(** [0 <= x] *)
Definition nonneg (x : pyfloat) : bool := leb pos_zero x.

End Float.

Module Builtins.
Import Str Float.

(** White space as the numeric constructors see it (C [isspace] after the
    non-ASCII spaces have been turned into blanks). *)
Definition is_c_space (c : ascii) : bool :=
  let n := code c in
  (((9 <=? n) && (n <=? 13)) || (n =? 32) || (n =? 133) || (n =? 160))%N.

Definition digit_value (c : ascii) : Z := Z.of_N (code c) - 48.

(** Value of a string of decimal digits, read after the digits that gave
    [acc]. *)
Fixpoint digits_from (acc : Z) (s : string) : Z :=
  match s with
  | EmptyString => acc
  | String a s' => digits_from (10 * acc + digit_value a)%Z s'
  end.

Definition digits_value (s : string) : Z := digits_from 0 s.

(** PEP 515: an underscore only between two digits.  Returns the text without
    its underscores, or [None] where one is misplaced. *)
Fixpoint drop_underscores (prev : ascii) (s : string) : option string :=
  match s with
  | EmptyString => if Ascii.eqb prev "_" then None else Some EmptyString
  | String a s' =>
      if Ascii.eqb a "_" then
        if is_digit prev then drop_underscores a s' else None
      else if Ascii.eqb prev "_" && negb (is_digit a) then None
      else match drop_underscores a s' with
           | Some r => Some (String a r)
           | None => None
           end
  end.

Definition split_sign (s : string) : bool * string :=
  match s with
  | String "-" s' => (true, s')
  | String "+" s' => (false, s')
  | _ => (false, s)
  end.

(** The decimal grammar of [float]: digits, an optional point and digits (one
    digit at least), an optional exponent; nothing may follow. *)
Definition parse_decimal (neg : bool) (body : string) : option pyfloat :=
  let (ip, r1) := span is_digit body in
  let (fp, r2) :=
    match r1 with
    | String "." r => span is_digit r
    | _ => (EmptyString, r1)
    end in
  if is_empty ip && is_empty fp then None
  else
    let m := digits_value (ip ++ fp) in
    let shift := Z.of_nat (String.length fp) in
    match r2 with
    | EmptyString => Some (of_decimal neg m (- shift))
    | String c r3 =>
        if Ascii.eqb (lower c) "e" then
          let (eneg, r4) := split_sign r3 in
          if all is_digit r4 && negb (is_empty r4) then
            let ex := digits_value r4 in
            Some (of_decimal neg m ((if eneg then - ex else ex) - shift))
          else None
        else None
    end.

Definition parse_inf_or_nan (neg : bool) (body : string) : option pyfloat :=
  let l := lowercase body in
  if String.eqb l "inf" || String.eqb l "infinity" then Some (Inf neg)
  else if String.eqb l "nan" then Some Nan
  else None.

(** [float(s)] for a string [s] *)
Definition float (s : string) : result pyfloat :=
  match drop_underscores Ascii.zero s with
  | None => Raise ValueError
  | Some s1 =>
      let s2 := rstrip_by is_c_space (lstrip_by is_c_space s1) in
      let (neg, body) := split_sign s2 in
      match parse_decimal neg body with
      | Some f => Ok f
      | None =>
          match parse_inf_or_nan neg body with
          | Some f => Ok f
          | None => Raise ValueError
          end
      end
  end.

(** The default of [sys.set_int_max_str_digits] (CPython 3.11 and later). *)
Definition int_max_str_digits : nat := 4300.

(** [int(s)] for a string [s], base 10 *)
Definition int (s : string) : result Z :=
  match drop_underscores Ascii.zero s with
  | None => Raise ValueError
  | Some s1 =>
      let s2 := rstrip_by is_c_space (lstrip_by is_c_space s1) in
      let (neg, body) := split_sign s2 in
      if all is_digit body && negb (is_empty body) then
        if (int_max_str_digits <? String.length body)%nat then Raise ValueError
        else Ok (if neg then - digits_value body else digits_value body)%Z
      else Raise ValueError
  end.

End Builtins.

(** ** The script *)

Module PlotLatency.
Import Str Float Builtins.

(** *** Values *)

(** A [dict] with float keys, in insertion order.  Every key is a float
    object made by its own call of [float], so a lookup finds a key by [==]
    only (never by identity): NaN keys are never found again. *)
Definition dict : Type := list (pyfloat * pyfloat).

(** [d[k] = v]: an equal key keeps its place (and the key object first
    inserted), a new key goes to the end. *)
Fixpoint dict_set (d : dict) (k v : pyfloat) : dict :=
  match d with
  | [] => [(k, v)]
  | (k', v') :: d' =>
      if Float.eqb k' k then (k', v) :: d' else (k', v') :: dict_set d' k v
  end.

(** [d.get(k)] *)
Fixpoint dict_get (d : dict) (k : pyfloat) : option pyfloat :=
  match d with
  | [] => None
  | (k', v') :: d' => if Float.eqb k' k then Some v' else dict_get d' k
  end.

(** [list(d.keys())], [list(d.values())] *)
Definition keys (d : dict) : list pyfloat := map fst d.
Definition values (d : dict) : list pyfloat := map snd d.

(** A summary field holds an [int] or a [float]. *)
Inductive number : Type :=
| Int (z : Z)
| Flt (f : pyfloat).

(** The dictionary [stats] returned by [parse_hey_output]. *)
Record stats : Type := {
  total_requests : Z;
  duration : number;
  requests_per_sec : number;
  percentiles : dict
}.

(** *** The regular expressions

    Each search returns group 1 of the leftmost match.  In each pattern the
    character class of a repetition excludes the character that must follow
    it, so the greedy repetition takes the maximal run and giving characters
    back can never turn a failed attempt into a match. *)

(** [re.search] scans the start positions from left to right. *)
Fixpoint search {A} (match_at : string -> option A) (s : string) : option A :=
  match match_at s with
  | Some a => Some a
  | None =>
      match s with
      | EmptyString => None
      | String _ s' => search match_at s'
      end
  end.

(** One or more characters of class [p]: the run and the rest. *)
Definition many1 (p : ascii -> bool) (s : string) : option (string * string) :=
  let (run, rest) := span p s in
  if is_empty run then None else Some (run, rest).

(** [r'Latency distribution:(.*?)Requests/sec:'] with [re.DOTALL]: from the
    first header to the first footer after it. *)
Definition latency_section_re (content : string) : option string :=
  match find "Latency distribution:" content with
  | None => None
  | Some (_, rest) =>
      match find "Requests/sec:" rest with
      | None => None
      | Some (group1, _) => Some group1
      end
  end.

(** [r'Total:\s+(\d+)\s+requests'] at the start of [s] *)
Definition total_requests_at (s : string) : option string :=
  match drop_prefix "Total:" s with
  | None => None
  | Some r1 =>
      match many1 is_space r1 with
      | None => None
      | Some (_, r2) =>
          match many1 is_digit r2 with
          | None => None
          | Some (group1, r3) =>
              match many1 is_space r3 with
              | None => None
              | Some (_, r4) =>
                  match drop_prefix "requests" r4 with
                  | None => None
                  | Some _ => Some group1
                  end
              end
          end
      end
  end.

(** [r'in\s+([\d.]+)s'] at the start of [s] *)
Definition duration_at (s : string) : option string :=
  match drop_prefix "in" s with
  | None => None
  | Some r1 =>
      match many1 is_space r1 with
      | None => None
      | Some (_, r2) =>
          match many1 is_digit_or_dot r2 with
          | None => None
          | Some (group1, r3) =>
              match drop_prefix "s" r3 with
              | None => None
              | Some _ => Some group1
              end
          end
      end
  end.

(** [r'Requests/sec:\s+([\d.]+)'] at the start of [s] *)
Definition req_per_sec_at (s : string) : option string :=
  match drop_prefix "Requests/sec:" s with
  | None => None
  | Some r1 =>
      match many1 is_space r1 with
      | None => None
      | Some (_, r2) =>
          match many1 is_digit_or_dot r2 with
          | None => None
          | Some (group1, _) => Some group1
          end
      end
  end.

Definition total_requests_re : string -> option string := search total_requests_at.
Definition duration_re : string -> option string := search duration_at.
Definition req_per_sec_re : string -> option string := search req_per_sec_at.

(** *** parse_hey_output: the percentile loop *)

(** The body of [for line in latency_text.split('\n')], from the dictionary
    before the line to the dictionary after it. *)
Definition percentile_line (percentiles : dict) (line : string) : result dict :=
  if contains "%" line then
    let parts := split (strip line) in
    if (2 <=? List.length parts)%nat then
      part0 <- index parts 0 ;;
      let percentile := rstrip "%" part0 in
      try_except_ValueError
        (part1 <- index parts 1 ;;
         value <- float part1 ;;
         key <- float percentile ;;
         Ok (dict_set percentiles key value))
        (Ok percentiles)
    else Ok percentiles
  else Ok percentiles.

Fixpoint percentile_loop (percentiles : dict) (lines : list string) : result dict :=
  match lines with
  | [] => Ok percentiles
  | line :: rest =>
      d <- percentile_line percentiles line ;;
      percentile_loop d rest
  end.

Definition parse_percentiles (latency_text : string) : result dict :=
  percentile_loop [] (split_on "010" latency_text).

(** *** parse_hey_output: the summary fields *)

(** [int(total_requests.group(1)) if total_requests else 0] *)
Definition total_requests_field (m : option string) : result Z :=
  match m with
  | Some group1 => int group1
  | None => Ok 0%Z
  end.

(** [float(m.group(1)) if m else 0], for [duration] and [req_per_sec] *)
Definition float_field (m : option string) : result number :=
  match m with
  | Some group1 => f <- float group1 ;; Ok (Flt f)
  | None => Ok (Int 0)
  end.

(** The dictionary display [stats = {...}]; its entries are evaluated in
    order. *)
Definition build_stats (content : string) (percentiles : dict) : result stats :=
  let total_requests := total_requests_re content in
  let duration := duration_re content in
  let req_per_sec := req_per_sec_re content in
  t <- total_requests_field total_requests ;;
  d <- float_field duration ;;
  r <- float_field req_per_sec ;;
  Ok {| total_requests := t; duration := d; requests_per_sec := r;
        percentiles := percentiles |}.

(** *** The chart *)

(** What the figure shows when it is saved. *)
Record figure : Type := {
  curve_x : list pyfloat;
  curve_y : list pyfloat;
  key_lines : list (Z * pyfloat);
  summary_total : Z;
  summary_duration : number;
  summary_rate : number;
  summary_keys : list number
}.

Definition key_percentiles : list Z := [50; 90; 95; 99]%Z.

(** [percentiles.get(p, 0)] for an [int] [p] *)
Definition get_or_0 (d : dict) (p : Z) : number :=
  match dict_get d (of_Z p) with
  | Some v => Flt v
  | None => Int 0
  end.

Definition draw (st : stats) : figure :=
  let percentiles := percentiles st in
  let p_values := keys percentiles in
  let latencies := values percentiles in
  {| curve_x := p_values;
     curve_y := latencies;
     key_lines :=
       flat_map (fun p => match dict_get percentiles (of_Z p) with
                          | Some v => [(p, v)]
                          | None => []
                          end) key_percentiles;
     summary_total := total_requests st;
     summary_duration := duration st;
     summary_rate := requests_per_sec st;
     summary_keys := map (get_or_0 percentiles) key_percentiles |}.

(** *** Files and output *)

(** The lines the script prints. *)
Inductive message : Type :=
| MsgNoSection       (* Error: Could not find latency distribution in output *)
| MsgNoData          (* Error: No latency data to plot *)
| MsgSaved (output_file : string)
| MsgUsage
| MsgFailedToParse
| MsgError (e : exn).

Record world : Type := {
  files : string -> option string;   (* the text files that can be read *)
  writable : string -> bool;         (* the paths an image can be saved to *)
  stdout : list message;
  saved : list (string * figure)
}.

Definition M (A : Type) : Type := world -> result A * world.

Definition ret {A} (a : A) : M A := fun w => (Ok a, w).
Definition raise {A} (e : exn) : M A := fun w => (Raise e, w).
Definition lift {A} (r : result A) : M A := fun w => (r, w).
Definition bind {A B} (m : M A) (k : A -> M B) : M B :=
  fun w => match m w with
           | (Ok a, w') => k a w'
           | (Raise e, w') => (Raise e, w')
           end.

Notation "x <~ m ;; k" := (bind m (fun x => k))
  (at level 61, m at next level, right associativity).
Notation "m ;;; k" := (bind m (fun _ => k))
  (at level 61, right associativity).

(** [try: body except Exception as e: handler(e)] *)
Definition try_except_Exception {A} (body : M A) (handler : exn -> M A) : M A :=
  fun w => match body w with
           | (Raise e, w') =>
               if is_Exception e then handler e w' else (Raise e, w')
           | other => other
           end.

Definition print (m : message) : M unit :=
  fun w => (Ok tt, {| files := files w; writable := writable w;
                      stdout := stdout w ++ [m]; saved := saved w |}).

(** [with open(filename, 'r') as f: content = f.read()] *)
Definition read_text (filename : string) : M string :=
  fun w => match files w filename with
           | Some content => (Ok content, w)
           | None => (Raise OSError, w)
           end.

(** [plt.savefig(output_file, ...)] *)
Definition savefig (output_file : string) (fig : figure) : M unit :=
  fun w => if writable w output_file
           then (Ok tt, {| files := files w; writable := writable w;
                           stdout := stdout w;
                           saved := saved w ++ [(output_file, fig)] |})
           else (Raise OSError, w).

(** *** The three functions *)

(** [parse_hey_output] after the file has been read. *)
Definition parse_content (content : string) : M (option stats) :=
  match latency_section_re content with
  | None => print MsgNoSection ;;; ret None
  | Some latency_text =>
      percentiles <~ lift (parse_percentiles latency_text) ;;
      st <~ lift (build_stats content percentiles) ;;
      ret (Some st)
  end.

Definition parse_hey_output (filename : string) : M (option stats) :=
  content <~ read_text filename ;;
  parse_content content.

Definition default_output : string := "latency_plot.png".

Definition create_latency_plot (st : option stats) (output_file : string) : M unit :=
  match st with
  | None => print MsgNoData ;;; ret tt
  | Some st =>
      match percentiles st with
      | [] => print MsgNoData ;;; ret tt
      | _ :: _ =>
          savefig output_file (draw st) ;;;
          print (MsgSaved output_file)
      end
  end.

(** [sys.argv[2] if len(sys.argv) > 2 else 'latency_plot.png'] *)
Definition output_path (argv : list string) : string :=
  if (2 <? List.length argv)%nat then nth 2 argv default_output
  else default_output.

Definition main (argv : list string) : M unit :=
  if (List.length argv <? 2)%nat then
    print MsgUsage ;;; raise (SystemExit 1)
  else
    input_file <~ lift (index argv 1) ;;
    let output_file := output_path argv in
    try_except_Exception
      (st <~ parse_hey_output input_file ;;
       match st with
       | Some st => create_latency_plot (Some st) output_file
       | None => print MsgFailedToParse ;;; raise (SystemExit 1)
       end)
      (fun e => print (MsgError e) ;;; raise (SystemExit 1)).

(** The status the process ends with. *)
Definition exit_code (r : result unit) : Z :=
  match r with
  | Ok _ => 0
  | Raise (SystemExit status) => status
  | Raise _ => 1
  end.

(** A run of the script from a world with nothing printed or saved yet. *)
Definition initial (fs : string -> option string) (wr : string -> bool) : world :=
  {| files := fs; writable := wr; stdout := []; saved := [] |}.

Definition run (argv : list string) (w : world) : Z * world :=
  let (r, w') := main argv w in (exit_code r, w').

(** *** Notions the properties are stated with *)

(** What one line of the block contributes: the rank and the value that the
    loop body stores for it, if it stores any. *)
Definition line_entry (line : string) : option (pyfloat * pyfloat) :=
  if contains "%" line then
    match split (strip line) with
    | part0 :: part1 :: _ =>
        match float part1, float (rstrip "%" part0) with
        | Ok value, Ok key => Some (key, value)
        | _, _ => None
        end
    | _ => None
    end
  else None.

(** The dictionary after a line: with the entry of the line stored, or as it
    was. *)
Definition store (d : dict) (line : string) : dict :=
  match line_entry line with
  | Some (key, value) => dict_set d key value
  | None => d
  end.

(** [x == y] between an [int] or [float] and a [float]; an [int] is compared
    by its exact value. *)
Definition num_eqb (x : number) (y : pyfloat) : bool :=
  match x, y with
  | Flt f, _ => Float.eqb f y
  | Int z, Fin s m e => (z * 2 ^ (- emin) =? scaled s m e)%Z
  | Int _, _ => false
  end.

(** [0 <= x] *)
Definition number_nonneg (x : number) : bool :=
  match x with
  | Int z => (0 <=? z)%Z
  | Flt f => Float.nonneg f
  end.

(** [0 < k <= 100] *)
Definition in_rank_domain (k : pyfloat) : bool :=
  Float.ltb pos_zero k && Float.leb k (of_Z 100).

(** The invariant the data model states for a report. *)
Definition data_model_invariant (st : stats) : bool :=
  (0 <=? total_requests st)%Z
  && number_nonneg (duration st)
  && number_nonneg (requests_per_sec st)
  && forallb (fun kv => in_rank_domain (fst kv) && Float.nonneg (snd kv))
             (percentiles st).

(** Strictly ascending, each element below the next. *)
Fixpoint ascending (l : list pyfloat) : bool :=
  match l with
  | [] => true
  | x :: l' =>
      match l' with
      | [] => true
      | y :: _ => Float.ltb x y && ascending l'
      end
  end.

(** The unique double nearest to the positive rational [n / d], as a
    relation: a normal double at most half a unit in the last place away
    (and with an even mantissa when exactly half). *)
Definition nearest_normal (f : pyfloat) (n d : Z) : bool :=
  match f with
  | Fin false m e =>
      ((2 ^ 52 <=? m) && (m <? 2 ^ 53) && (emin <=? e) && (e <=? 0)
       && (let err := Z.abs (m * d - n * 2 ^ (- e)) in
           (2 * err <? d) || ((2 * err =? d) && Z.even m)))%Z
  | _ => false
  end.

(** The entries of the lines of a block, in order. *)
Definition entries (lines : list string) : list (pyfloat * pyfloat) :=
  flat_map (fun line => match line_entry line with
                        | Some kv => [kv]
                        | None => []
                        end) lines.

(** No two keys of the dictionary are equal ([==]). *)
Fixpoint keys_distinct (d : dict) : bool :=
  match d with
  | [] => true
  | (k, _) :: d' =>
      forallb (fun kv => negb (Float.eqb k (fst kv))) d' && keys_distinct d'
  end.

Definition header : string := "Latency distribution:".
Definition footer : string := "Requests/sec:".

End PlotLatency.

(** ** Inputs used in the examples *)

Module Inputs.
Import Float PlotLatency.

Definition nl : string := String "010" EmptyString.

Fixpoint unlines (l : list string) : string :=
  match l with
  | [] => EmptyString
  | x :: l' => x ++ nl ++ unlines l'
  end.

(** The well-formed report. *)
Definition reference : string :=
  unlines [ "Summary:";
            "  Total: 1000 requests";
            "  in 10.0s";
            "";
            "Latency distribution:";
            "  50% 12.3";
            "  90% 45.6";
            "  95% 78.9";
            "  99% 150.2";
            "";
            "Requests/sec: 100.0" ].

(** A latency section without any percentile line. *)
Definition no_entries : string :=
  unlines [ "Latency distribution:";
            "  (no samples)";
            "Requests/sec: 0.0" ].

(** A throughput line whose number has two points. *)
Definition bad_rate : string :=
  unlines [ "Latency distribution:";
            "  50% 12.3";
            "Requests/sec: 1.2.3" ].

(** Ranks listed in descending order. *)
Definition descending : string :=
  unlines [ "Latency distribution:";
            "  90% 45.6";
            "  50% 12.3";
            "Requests/sec: 100.0" ].

(** A rank above 100 with a negative value. *)
Definition out_of_range : string :=
  unlines [ "Latency distribution:";
            "  200% -5";
            "Requests/sec: 100.0" ].

(** No latency section at all. *)
Definition no_section : string :=
  unlines [ "Summary:"; "  Total: 1000 requests" ].

(** A file system holding one report under the name [hey.txt]. *)
Definition one_file (content : string) (filename : string) : option string :=
  if String.eqb filename "hey.txt" then Some content else None.

Definition any_path (_ : string) : bool := true.

Definition world_with (content : string) : world :=
  initial (one_file content) any_path.

Definition argv1 : list string := ["plot_latency.py"; "hey.txt"].

Definition f50 : pyfloat := Fin false 7036874417766400 (-47).
Definition f90 : pyfloat := Fin false 6333186975989760 (-46).
Definition f95 : pyfloat := Fin false 6685030696878080 (-46).
Definition f99 : pyfloat := Fin false 6966505673588736 (-46).
Definition f12_3 : pyfloat := Fin false 6924284427082138 (-49).
Definition f45_6 : pyfloat := Fin false 6417629469002957 (-47).
Definition f78_9 : pyfloat := Fin false 5552093915617690 (-46).
Definition f150_2 : pyfloat := Fin false 5284692687742566 (-45).
Definition f10 : pyfloat := Fin false 5629499534213120 (-49).
Definition f100 : pyfloat := Fin false 7036874417766400 (-46).

End Inputs.

(** * Properties *)

Import Str Float Builtins PlotLatency Inputs.
Open Scope list_scope.

(** ** The embedding at work *)

Example split_on_newline :
  split_on "010" (unlines ["a"; ""; "b"]) = ["a"; ""; "b"; ""].
Proof. reflexivity. Qed.

Example split_tokens : split (strip "  50%   12.3 ms ") = ["50%"; "12.3"; "ms"].
Proof. reflexivity. Qed.

Example rstrip_percent : rstrip "%" "50%%" = "50".
Proof. reflexivity. Qed.

Example float_tenth : float "0.1" = Ok (Fin false 7205759403792794 (-56)).
Proof. reflexivity. Qed.

Example float_ties_to_even :
  float "9007199254740993" = Ok (Fin false 4503599627370496 1) /\
  float "9007199254740995" = Ok (Fin false 4503599627370498 1).
Proof. split; reflexivity. Qed.

Example float_range :
  float "1.7976931348623157e308" = Ok (Fin false 9007199254740991 971) /\
  float "1e400" = Ok (Inf false) /\
  float "4.9e-324" = Ok (Fin false 1 (-1074)) /\
  float "1e-400" = Ok (Fin false 0 (-1074)).
Proof. repeat split; reflexivity. Qed.

Example float_words :
  map float ["-nan"; "+INF"; "Infinity"; "infinit"] =
    [Ok Nan; Ok (Inf false); Ok (Inf false); Raise ValueError].
Proof. reflexivity. Qed.

Example float_rejects :
  map float ["abc"; "."; "1.2.3"; "1e"; "1__0"; "_1"; "0x10"; ""] =
    repeat (Raise ValueError) 8.
Proof. reflexivity. Qed.

Example float_accepts :
  map float ["1_0"; "1."; ".5"; "-0"] =
    [Ok (Fin false 5629499534213120 (-49)); Ok (Fin false 4503599627370496 (-52));
     Ok (Fin false 4503599627370496 (-53)); Ok (Fin true 0 (-1074))].
Proof. reflexivity. Qed.

Example nan_keys_pile_up :
  parse_percentiles (unlines ["nan% 1"; "nan% 2"]) =
    Ok [(Nan, Fin false 4503599627370496 (-52));
        (Nan, Fin false 4503599627370496 (-51))].
Proof. reflexivity. Qed.

Example section_is_first_header_to_next_footer :
  latency_section_re
    "Latency distribution:Latency distribution:aRequests/sec:bRequests/sec:"
  = Some "Latency distribution:a".
Proof. reflexivity. Qed.

Example duration_is_leftmost_match :
  duration_re "within 3 in  1.5s in 2s" = Some "1.5".
Proof. reflexivity. Qed.

(** ** Floats, dictionaries and the loop *)

Lemma float_raises_ValueError (s : string) (e : exn) :
  float s = Raise e -> e = ValueError.
Proof.
  unfold float.
  destruct (drop_underscores Ascii.zero s) as [s1|]; [|congruence].
  destruct (split_sign _) as [neg body].
  destruct (parse_decimal neg body); [discriminate|].
  destruct (parse_inf_or_nan neg body); congruence.
Qed.

Lemma eqb_sym (x y : pyfloat) : Float.eqb x y = Float.eqb y x.
Proof.
  destruct x, y; simpl; auto using Z.eqb_sym.
  destruct neg, neg0; reflexivity.
Qed.

Lemma eqb_trans (x y z : pyfloat) :
  Float.eqb x y = true -> Float.eqb y z = true -> Float.eqb x z = true.
Proof.
  destruct x, y, z; simpl; try discriminate.
  - destruct neg, neg0, neg1; simpl; congruence.
  - rewrite !Z.eqb_eq. congruence.
Qed.

Lemma dict_get_set_same (d : dict) (k v : pyfloat) :
  Float.eqb k k = true -> dict_get (dict_set d k v) k = Some v.
Proof.
  intros Hk. induction d as [|[k' v'] d IH]; simpl.
  - now rewrite Hk.
  - destruct (Float.eqb k' k) eqn:E; simpl; now rewrite E.
Qed.

Lemma dict_get_set_other (d : dict) (k v k2 : pyfloat) :
  Float.eqb k k2 = false -> dict_get (dict_set d k v) k2 = dict_get d k2.
Proof.
  intros Hk. induction d as [|[k' v'] d IH]; simpl.
  - now rewrite Hk.
  - destruct (Float.eqb k' k) eqn:E; simpl.
    + destruct (Float.eqb k' k2) eqn:E2; [|reflexivity].
      rewrite eqb_sym in E.
      now rewrite (eqb_trans _ _ _ E E2) in Hk.
    + now rewrite IH.
Qed.

Lemma keys_dict_set (d : dict) (k v k0 : pyfloat) :
  In k0 (keys (dict_set d k v)) -> In k0 (keys d) \/ k0 = k.
Proof.
  unfold keys. induction d as [|[k' v'] d IH]; simpl.
  - intuition.
  - destruct (Float.eqb k' k); simpl; intuition.
Qed.

Lemma percentile_line_store (d : dict) (line : string) :
  percentile_line d line = Ok (store d line).
Proof.
  unfold percentile_line, store, line_entry.
  destruct (contains "%" line); [|reflexivity].
  destruct (split (strip line)) as [|part0 [|part1 rest]]; try reflexivity.
  cbn [List.length Nat.leb index nth_error rbind].
  destruct (float part1) as [value|e] eqn:E1; cbn.
  - destruct (float (rstrip "%" part0)) as [key|e] eqn:E0; cbn.
    + reflexivity.
    + now rewrite (float_raises_ValueError _ _ E0).
  - now rewrite (float_raises_ValueError _ _ E1).
Qed.

Lemma percentile_loop_fold (lines : list string) (d : dict) :
  percentile_loop d lines = Ok (fold_left store lines d).
Proof.
  revert d. induction lines as [|line lines IH]; intros d; simpl.
  - reflexivity.
  - rewrite percentile_line_store. simpl. apply IH.
Qed.

Lemma fold_store_last (tail : list string) (d : dict) (key value : pyfloat) :
  dict_get d key = Some value ->
  (forall l k v, In l tail -> line_entry l = Some (k, v) ->
                 Float.eqb k key = false) ->
  dict_get (fold_left store tail d) key = Some value.
Proof.
  revert d. induction tail as [|l tail IH]; intros d Hd Hlater; simpl.
  - exact Hd.
  - apply IH.
    + unfold store. destruct (line_entry l) as [[k v]|] eqn:E; [|exact Hd].
      rewrite dict_get_set_other; [exact Hd|].
      apply (Hlater l k v); [now left|exact E].
    + intros l' k v Hin. apply Hlater. now right.
Qed.

Lemma fold_store_captured (before after : list string) (line : string)
      (d : dict) (key value : pyfloat) :
  line_entry line = Some (key, value) ->
  Float.eqb key key = true ->
  (forall l k v, In l after -> line_entry l = Some (k, v) ->
                 Float.eqb k key = false) ->
  dict_get (fold_left store (before ++ line :: after) d) key = Some value.
Proof.
  intros Hline Hkey Hlater.
  rewrite fold_left_app. simpl.
  apply fold_store_last; [|exact Hlater].
  unfold store at 1. rewrite Hline. now apply dict_get_set_same.
Qed.

Lemma fold_store_keys (lines : list string) (d : dict) (k : pyfloat) :
  In k (keys (fold_left store lines d)) ->
  In k (keys d) \/
  exists l v, In l lines /\ line_entry l = Some (k, v).
Proof.
  revert d. induction lines as [|l lines IH]; intros d Hin; simpl in *.
  - now left.
  - destruct (IH _ Hin) as [H|[l' [v [H1 H2]]]].
    + unfold store in H. destruct (line_entry l) as [[k' v']|] eqn:E.
      * destruct (keys_dict_set _ _ _ _ H) as [H'| ->]; [now left|].
        right. exists l, v'. split; [now left|exact E].
      * now left.
    + right. exists l', v. split; [now right|exact H2].
Qed.

Lemma line_entry_tokens (line : string) (key value : pyfloat) :
  line_entry line = Some (key, value) ->
  exists part0 part1 rest,
    contains "%" line = true /\
    split (strip line) = part0 :: part1 :: rest /\
    float (rstrip "%" part0) = Ok key /\
    float part1 = Ok value.
Proof.
  unfold line_entry. destruct (contains "%" line); [|discriminate].
  destruct (split (strip line)) as [|part0 [|part1 rest]]; try discriminate.
  destruct (float part1) as [v|] eqn:E1; [|discriminate].
  destruct (float (rstrip "%" part0)) as [k|] eqn:E0; [|discriminate].
  intros [= <- <-]. exists part0, part1, rest. repeat split; assumption.
Qed.

(** ** The percentile loop is tolerant line by line *)

(** C10: inside the latency block, a line with a [%] sign and fewer than two
    tokens leaves the dictionary as it is, and so does a line whose rank
    token, once its trailing [%] signs are removed, is not a number; the
    loop body never raises (neither [ValueError] nor [IndexError]). *)
Theorem percentile_line_never_raises (d : dict) (line : string) :
  (exists d', percentile_line d line = Ok d') /\
  (contains "%" line = true ->
   (List.length (split (strip line)) < 2)%nat ->
   percentile_line d line = Ok d) /\
  (forall part0 part1 rest,
      contains "%" line = true ->
      split (strip line) = part0 :: part1 :: rest ->
      float (rstrip "%" part0) = Raise ValueError ->
      percentile_line d line = Ok d).
Proof.
  split; [|split].
  - eexists. apply percentile_line_store.
  - intros _ Hlen. rewrite percentile_line_store. unfold store, line_entry.
    destruct (contains "%" line); [|reflexivity].
    destruct (split (strip line)) as [|part0 [|part1 rest]]; try reflexivity.
    simpl in Hlen. lia.
  - intros part0 part1 rest _ Hparts Hrank.
    rewrite percentile_line_store. unfold store, line_entry.
    destruct (contains "%" line); [|reflexivity].
    rewrite Hparts, Hrank. now destruct (float part1).
Qed.

Lemma percentile_line_never_raises_witness :
  percentile_line [(f50, f12_3)] "  50%" = Ok [(f50, f12_3)] /\
  percentile_line [(f50, f12_3)] "abc% 45.6" = Ok [(f50, f12_3)].
Proof.
  split.
  - apply (proj1 (proj2 (percentile_line_never_raises [(f50, f12_3)] "  50%"))).
    + reflexivity.
    + simpl. lia.
  - apply (proj2 (proj2 (percentile_line_never_raises [(f50, f12_3)] "abc% 45.6"))
             "abc%" "45.6" []).
    + reflexivity.
    + reflexivity.
    + reflexivity.
Defined.

(** C7: a percentile line whose value token is not a number (as in
    [50% abc]) is skipped without raising: the block parses as it does
    without that line, and every later well-formed line is stored under its
    rank with its value (unless a still later line has the same rank). *)
Theorem bad_value_line_is_skipped
        (latency_text : string) (before after : list string) (line : string)
        (part0 part1 : string) (rest : list string) :
  split_on "010" latency_text = before ++ line :: after ->
  contains "%" line = true ->
  split (strip line) = part0 :: part1 :: rest ->
  float part1 = Raise ValueError ->
  parse_percentiles latency_text = percentile_loop [] (before ++ after) /\
  exists d,
    parse_percentiles latency_text = Ok d /\
    forall mid good tail key value,
      after = mid ++ good :: tail ->
      line_entry good = Some (key, value) ->
      Float.eqb key key = true ->
      (forall l k v, In l tail -> line_entry l = Some (k, v) ->
                     Float.eqb k key = false) ->
      dict_get d key = Some value.
Proof.
  intros Hsplit Hpct Hparts Hvalue.
  assert (Hskip : forall d, store d line = d).
  { intros d. unfold store, line_entry. now rewrite Hpct, Hparts, Hvalue. }
  unfold parse_percentiles. rewrite Hsplit, !percentile_loop_fold.
  assert (Heq : fold_left store (before ++ line :: after) [] =
                fold_left store (before ++ after) []).
  { rewrite !fold_left_app. simpl. now rewrite Hskip. }
  split; [now rewrite Heq|].
  eexists. split; [reflexivity|].
  intros mid good tail key value -> Hgood Hkey Hlater.
  rewrite Heq, app_assoc.
  now apply fold_store_captured.
Qed.

Lemma bad_value_line_is_skipped_witness :
  parse_percentiles (unlines ["50% abc"; "90% 45.6"]) =
    percentile_loop [] ["90% 45.6"; ""] /\
  exists d,
    parse_percentiles (unlines ["50% abc"; "90% 45.6"]) = Ok d /\
    dict_get d f90 = Some f45_6.
Proof.
  destruct (bad_value_line_is_skipped
              (unlines ["50% abc"; "90% 45.6"]) [] ["90% 45.6"; ""] "50% abc"
              "50%" "abc" [] eq_refl eq_refl eq_refl eq_refl)
    as [Hsame [d [Hd Hlater]]].
  split; [exact Hsame|].
  exists d. split; [exact Hd|].
  apply (Hlater [] "90% 45.6" [""] f90 f45_6); try reflexivity.
  intros l k v [<-|[]]. discriminate.
Defined.

(** C9: when several lines of the block have the same rank, the mapping
    holds for it the value of the last of them; and every key of the mapping
    is the float made from the rank token of a line (the first token without
    its trailing [%] signs), fractional ranks included. *)
Theorem last_occurrence_wins
        (latency_text : string) (before after : list string) (line : string)
        (key value : pyfloat) :
  split_on "010" latency_text = before ++ line :: after ->
  line_entry line = Some (key, value) ->
  Float.eqb key key = true ->
  (forall l k v, In l after -> line_entry l = Some (k, v) ->
                 Float.eqb k key = false) ->
  exists d,
    parse_percentiles latency_text = Ok d /\
    dict_get d key = Some value /\
    forall k, In k (keys d) ->
      exists l part0 part1 rest,
        In l (split_on "010" latency_text) /\
        split (strip l) = part0 :: part1 :: rest /\
        float (rstrip "%" part0) = Ok k.
Proof.
  intros Hsplit Hline Hkey Hlater.
  unfold parse_percentiles. rewrite Hsplit, percentile_loop_fold.
  eexists. split; [reflexivity|]. split.
  - now apply fold_store_captured.
  - intros k Hin.
    destruct (fold_store_keys _ _ _ Hin) as [[]|[l [v [Hl He]]]].
    destruct (line_entry_tokens _ _ _ He) as [p0 [p1 [r [_ [H1 [H2 _]]]]]].
    now exists l, p0, p1, r.
Qed.

Lemma last_occurrence_wins_witness :
  exists d,
    parse_percentiles (unlines ["99.9% 12.3"; "99.9% 45.6"; "50% 78.9"]) = Ok d /\
    dict_get d (Fin false 7029837543348634 (-46)) = Some f45_6.
Proof.
  destruct (last_occurrence_wins
              (unlines ["99.9% 12.3"; "99.9% 45.6"; "50% 78.9"])
              ["99.9% 12.3"] ["50% 78.9"; ""] "99.9% 45.6"
              (Fin false 7029837543348634 (-46)) f45_6
              eq_refl eq_refl eq_refl)
    as [d [Hd [Hget _]]].
  - intros l k v [<-|[<-|[]]]; vm_compute; intros [= <- <-]; reflexivity || discriminate.
  - exists d. split; [exact Hd|exact Hget].
Defined.

(** ** The reference report *)

(** C4: parsing the well-formed report (the four percentile lines between
    the section delimiters, and the three summary lines) gives exactly the
    mapping 50.0 -> 12.3, 90.0 -> 45.6, 95.0 -> 78.9, 99.0 -> 150.2 with
    1000 requests, duration 10.0 and 100.0 requests per second; each float is
    the double nearest to the decimal written. *)
Theorem reference_report_parsed (filename : string) (w : world) :
  files w filename = Some reference ->
  parse_hey_output filename w =
    (Ok (Some {| total_requests := 1000;
                 duration := Flt f10;
                 requests_per_sec := Flt f100;
                 percentiles := [(f50, f12_3); (f90, f45_6);
                                 (f95, f78_9); (f99, f150_2)] |}), w)
  /\ forallb (fun '(f, n, d) => nearest_normal f n d)
       [(f50, 50, 1); (f90, 90, 1); (f95, 95, 1); (f99, 99, 1);
        (f12_3, 123, 10); (f45_6, 456, 10); (f78_9, 789, 10);
        (f150_2, 1502, 10); (f10, 10, 1); (f100, 100, 1)]%Z = true.
Proof.
  intros Hfile. split; [|reflexivity].
  unfold parse_hey_output, bind, read_text. rewrite Hfile.
  reflexivity.
Qed.

Lemma reference_report_parsed_witness :
  fst (parse_hey_output "hey.txt" (world_with reference)) =
    Ok (Some {| total_requests := 1000;
                duration := Flt f10;
                requests_per_sec := Flt f100;
                percentiles := [(f50, f12_3); (f90, f45_6);
                                (f95, f78_9); (f99, f150_2)] |}).
Proof.
  rewrite (proj1 (reference_report_parsed "hey.txt" (world_with reference) eq_refl)).
  reflexivity.
Defined.

(** ** Exit status *)

Lemma missing_argument_exit (argv : list string) (w : world) :
  (List.length argv < 2)%nat ->
  fst (run argv w) = 1%Z /\ saved (snd (run argv w)) = saved w.
Proof.
  intros Hlen. unfold run, main.
  apply Nat.ltb_lt in Hlen. rewrite Hlen. now cbn.
Qed.

(** C1: a run without an input-file argument ends with status 1, and so does
    a run on a report without latency section; but a run on a report whose
    latency section holds no percentile entry prints the no-data error,
    saves nothing and ends with status 0. *)
Theorem empty_percentiles_exit_status :
  fst (run ["plot_latency.py"] (world_with no_entries)) = 1%Z /\
  fst (run argv1 (world_with no_section)) = 1%Z /\
  fst (run argv1 (world_with reference)) = 0%Z /\
  fst (run argv1 (world_with no_entries)) = 0%Z /\
  stdout (snd (run argv1 (world_with no_entries))) = [MsgNoData] /\
  saved (snd (run argv1 (world_with no_entries))) = [].
Proof. repeat split; reflexivity. Qed.

(** ** What makes the parse fail *)

Lemma parse_content_no_section (content : string) (w : world) :
  latency_section_re content = None ->
  fst (parse_content content w) = Ok None.
Proof. intros H. unfold parse_content. now rewrite H. Qed.

Lemma parse_content_section (content latency_text : string) (w : world) :
  latency_section_re content = Some latency_text ->
  parse_content content w =
    (match build_stats content (fold_left store (split_on "010" latency_text) []) with
     | Ok st => Ok (Some st)
     | Raise e => Raise e
     end, w).
Proof.
  intros H. unfold parse_content, parse_percentiles. rewrite H.
  rewrite percentile_loop_fold. unfold bind, lift, ret.
  now destruct (build_stats _ _).
Qed.

(** C2: the parse returns no report exactly when the latency section cannot
    be located; but with the section located it still raises [ValueError]
    when a summary pattern captures text that is not a number, as the
    throughput line [Requests/sec: 1.2.3] does. *)
Theorem parse_raises_on_malformed_summary :
  (forall content w,
      fst (parse_content content w) = Ok None <->
      latency_section_re content = None) /\
  (forall w, parse_content bad_rate w = (Raise ValueError, w)).
Proof.
  split.
  - intros content w. split.
    + destruct (latency_section_re content) as [t|] eqn:E; [|reflexivity].
      rewrite (parse_content_section _ _ _ E). simpl.
      now destruct (build_stats _ _).
    + apply parse_content_no_section.
  - intros w. reflexivity.
Qed.

(** ** The order of the plotted points *)

(** C3, as stated, fails: for the report that lists rank 90 before rank 50
    the saved curve runs from 90 to 50. *)
Lemma curve_not_sorted_by_rank :
  map (fun pf => curve_x (snd pf)) (saved (snd (run argv1 (world_with descending))))
    = [[f90; f50]] /\
  ascending [f90; f50] = false /\
  ascending [f50; f90] = true.
Proof. repeat split; reflexivity. Qed.

(** C3, amended: for every report with a non-empty mapping the renderer
    draws the points in the order in which the mapping holds them (its
    insertion order), rank by rank with its latency; the curve is in
    ascending rank order exactly when the keys of the mapping are. *)
Theorem curve_follows_insertion_order
        (st : stats) (output_file : string) (w : world) :
  percentiles st <> [] ->
  writable w output_file = true ->
  exists w',
    create_latency_plot (Some st) output_file w = (Ok tt, w') /\
    saved w' = saved w ++ [(output_file, draw st)] /\
    curve_x (draw st) = keys (percentiles st) /\
    curve_y (draw st) = values (percentiles st) /\
    ascending (curve_x (draw st)) = ascending (keys (percentiles st)).
Proof.
  intros Hne Hw. unfold create_latency_plot.
  destruct (percentiles st) as [|kv d] eqn:E; [congruence|].
  unfold bind, savefig, print. rewrite Hw. cbn.
  eexists. split; [reflexivity|]. cbn. rewrite E. repeat split.
Qed.

Lemma curve_follows_insertion_order_witness :
  exists w',
    create_latency_plot
      (Some {| total_requests := 0; duration := Int 0;
               requests_per_sec := Flt f100;
               percentiles := [(f90, f45_6); (f50, f12_3)] |})
      default_output (world_with descending) = (Ok tt, w') /\
    map (fun pf => curve_x (snd pf)) (saved w') = [[f90; f50]].
Proof.
  destruct (curve_follows_insertion_order
              {| total_requests := 0; duration := Int 0;
                 requests_per_sec := Flt f100;
                 percentiles := [(f90, f45_6); (f50, f12_3)] |}
              default_output (world_with descending))
    as [w' [Hrun [Hsaved _]]].
  - discriminate.
  - reflexivity.
  - exists w'. split; [exact Hrun|]. rewrite Hsaved. reflexivity.
Defined.

(** ** Summary fields *)

Lemma summary_fields_of_report
      (content : string) (w w' : world) (st : stats) :
  parse_content content w = (Ok (Some st), w') ->
  total_requests_field (total_requests_re content) = Ok (total_requests st) /\
  float_field (duration_re content) = Ok (duration st) /\
  float_field (req_per_sec_re content) = Ok (requests_per_sec st).
Proof.
  intros Hparse.
  destruct (latency_section_re content) as [t|] eqn:E.
  2:{ unfold parse_content in Hparse. rewrite E in Hparse. discriminate. }
  rewrite (parse_content_section _ _ _ E) in Hparse.
  unfold build_stats in Hparse.
  destruct (total_requests_field (total_requests_re content)) as [tr|];
    [|discriminate].
  destruct (float_field (duration_re content)) as [du|]; [|discriminate].
  destruct (float_field (req_per_sec_re content)) as [rq|]; [|discriminate].
  cbn in Hparse. injection Hparse as <- _. now cbn.
Qed.

(** C8: each summary field of a report is what the search of its pattern
    over the whole input text gives; a field whose pattern occurs nowhere in
    the text is exactly 0 (the integer 0, equal to 0.0), and evaluating such
    a field raises nothing. *)
Theorem summary_fields_default
        (content : string) (w w' : world) (st : stats) :
  parse_content content w = (Ok (Some st), w') ->
  (total_requests_field (total_requests_re content) = Ok (total_requests st) /\
   float_field (duration_re content) = Ok (duration st) /\
   float_field (req_per_sec_re content) = Ok (requests_per_sec st)) /\
  (total_requests_re content = None -> total_requests st = 0%Z) /\
  (duration_re content = None ->
   duration st = Int 0 /\ num_eqb (duration st) pos_zero = true) /\
  (req_per_sec_re content = None ->
   requests_per_sec st = Int 0 /\ num_eqb (requests_per_sec st) pos_zero = true) /\
  total_requests_field None = Ok 0%Z /\
  float_field None = Ok (Int 0).
Proof.
  intros Hparse.
  destruct (summary_fields_of_report content w w' st Hparse) as [Ht [Hd Hr]].
  split; [auto|]. split; [|split; [|split; [|split; reflexivity]]].
  - intros H. rewrite H in Ht. cbn in Ht. congruence.
  - intros H. rewrite H in Hd. cbn in Hd. injection Hd as <-. now split.
  - intros H. rewrite H in Hr. cbn in Hr. injection Hr as <-. now split.
Qed.

Lemma summary_fields_default_witness :
  exists st,
    fst (parse_content no_entries (world_with no_entries)) = Ok (Some st) /\
    total_requests st = 0%Z /\ duration st = Int 0.
Proof.
  pose proof (summary_fields_default no_entries (world_with no_entries)
                (snd (parse_content no_entries (world_with no_entries)))
                {| total_requests := 0; duration := Int 0;
                   requests_per_sec := Flt pos_zero; percentiles := [] |}
                eq_refl) as [_ [Ht [Hd _]]].
  eexists. split; [reflexivity|].
  split; [exact (Ht eq_refl)|exact (proj1 (Hd eq_refl))].
Defined.

(** ** No image on a failed run *)

Lemma parse_content_world (content : string) (w : world) :
  saved (snd (parse_content content w)) = saved w /\
  writable (snd (parse_content content w)) = writable w.
Proof.
  destruct (latency_section_re content) as [t|] eqn:E.
  - now rewrite (parse_content_section _ _ _ E).
  - unfold parse_content. now rewrite E.
Qed.

Lemma main_saved (argv : list string) (w : world) :
  saved (snd (main argv w)) =
    match nth_error argv 1 with
    | None => saved w
    | Some input_file =>
        match files w input_file with
        | None => saved w
        | Some content =>
            match fst (parse_content content w) with
            | Ok (Some st) =>
                match percentiles st with
                | [] => saved w
                | _ :: _ =>
                    if writable w (output_path argv)
                    then saved w ++ [(output_path argv, draw st)]
                    else saved w
                end
            | _ => saved w
            end
        end
    end.
Proof.
  unfold main.
  destruct (List.length argv <? 2)%nat eqn:Hlen.
  - apply Nat.ltb_lt in Hlen.
    destruct argv as [|a0 [|a1 argv]]; simpl in Hlen; try lia; reflexivity.
  - apply Nat.ltb_ge in Hlen.
    destruct argv as [|a0 [|a1 argv]]; simpl in Hlen; try lia.
    generalize (output_path (a0 :: a1 :: argv)) as out. intros out.
    cbn [nth_error index lift bind].
    unfold try_except_Exception, parse_hey_output, bind, read_text.
    destruct (files w a1) as [content|]; [|reflexivity].
    destruct (parse_content_world content w) as [Hs Hw].
    destruct (parse_content content w) as [[[st|]|e] w1]; cbn in *.
    + unfold create_latency_plot.
      destruct (percentiles st) as [|kv d]; [cbn; exact Hs|].
      unfold bind, savefig. rewrite Hw.
      destruct (writable w out); cbn; now rewrite Hs.
    + exact Hs.
    + destruct (is_Exception e); cbn; exact Hs.
Qed.

(** C6: on each failure path (no input-file argument, no latency section,
    an empty percentile mapping) the run saves no image; an image is saved
    only for a report that was parsed with a non-empty mapping, and then it
    is the chart of that report. *)
Theorem no_image_on_failure (argv : list string) (w : world) :
  ((List.length argv < 2)%nat -> saved (snd (main argv w)) = saved w) /\
  (forall input_file content,
      nth_error argv 1 = Some input_file ->
      files w input_file = Some content ->
      latency_section_re content = None ->
      saved (snd (main argv w)) = saved w) /\
  (forall input_file content st,
      nth_error argv 1 = Some input_file ->
      files w input_file = Some content ->
      fst (parse_content content w) = Ok (Some st) ->
      percentiles st = [] ->
      saved (snd (main argv w)) = saved w) /\
  (saved (snd (main argv w)) = saved w \/
   exists input_file content st,
     nth_error argv 1 = Some input_file /\
     files w input_file = Some content /\
     fst (parse_content content w) = Ok (Some st) /\
     percentiles st <> [] /\
     saved (snd (main argv w)) = saved w ++ [(output_path argv, draw st)]).
Proof.
  rewrite main_saved. repeat split.
  - intros Hlen.
    destruct argv as [|a0 [|a1 argv]]; simpl in Hlen; try lia; reflexivity.
  - intros input_file content -> -> Hnone.
    now rewrite (parse_content_no_section _ w Hnone).
  - intros input_file content st -> -> -> ->. reflexivity.
  - destruct (nth_error argv 1) as [input_file|]; [|now left].
    destruct (files w input_file) as [content|] eqn:Ef; [|now left].
    destruct (fst (parse_content content w)) as [[st|]|e] eqn:E; try now left.
    destruct (percentiles st) as [|kv d] eqn:Ep; [now left|].
    destruct (writable w (output_path argv)); [|now left].
    right. exists input_file, content, st.
    repeat split; try assumption. rewrite Ep. discriminate.
Qed.

Lemma no_image_on_failure_witness :
  saved (snd (main ["plot_latency.py"] (world_with reference))) = [] /\
  saved (snd (main argv1 (world_with no_section))) = [] /\
  saved (snd (main argv1 (world_with no_entries))) = [].
Proof.
  split; [|split].
  - apply (proj1 (no_image_on_failure ["plot_latency.py"] (world_with reference))).
    simpl. lia.
  - apply (proj1 (proj2 (no_image_on_failure argv1 (world_with no_section)))
             "hey.txt" no_section); reflexivity.
  - apply (proj1 (proj2 (proj2 (no_image_on_failure argv1 (world_with no_entries))))
             "hey.txt" no_entries
             {| total_requests := 0; duration := Int 0;
                requests_per_sec := Flt pos_zero; percentiles := [] |});
      reflexivity.
Defined.

(** ** The data-model invariant *)

Lemma search_some {A} (match_at : string -> option A) (s : string) (a : A) :
  search match_at s = Some a -> exists s', match_at s' = Some a.
Proof.
  induction s as [|c s IH]; simpl.
  - destruct (match_at EmptyString) eqn:E; [|discriminate].
    intros [= <-]. now exists EmptyString.
  - destruct (match_at (String c s)) eqn:E.
    + intros [= <-]. now exists (String c s).
    + exact IH.
Qed.

Lemma span_all (p : ascii -> bool) (s : string) :
  all p (fst (span p s)) = true.
Proof.
  induction s as [|c s IH]; simpl; [reflexivity|].
  destruct (p c) eqn:E; [|reflexivity].
  destruct (span p s) as [h t]. simpl in *. now rewrite E.
Qed.

Lemma many1_all (p : ascii -> bool) (s run rest : string) :
  many1 p s = Some (run, rest) -> all p run = true.
Proof.
  unfold many1. pose proof (span_all p s) as H.
  destruct (span p s) as [h t]. simpl in H.
  destruct (is_empty h); [discriminate|]. now intros [= <- _].
Qed.

Lemma total_requests_re_digits (content group1 : string) :
  total_requests_re content = Some group1 -> all is_digit group1 = true.
Proof.
  intros H. apply search_some in H as [s H]. unfold total_requests_at in H.
  destruct (drop_prefix "Total:" s) as [r1|]; [|discriminate].
  destruct (many1 is_space r1) as [[ws r2]|]; [|discriminate].
  destruct (many1 is_digit r2) as [[g r3]|] eqn:E; [|discriminate].
  destruct (many1 is_space r3) as [[ws' r4]|]; [|discriminate].
  destruct (drop_prefix "requests" r4); [|discriminate].
  injection H as <-. exact (many1_all _ _ _ _ E).
Qed.

Lemma duration_re_digits (content group1 : string) :
  duration_re content = Some group1 -> all is_digit_or_dot group1 = true.
Proof.
  intros H. apply search_some in H as [s H]. unfold duration_at in H.
  destruct (drop_prefix "in" s) as [r1|]; [|discriminate].
  destruct (many1 is_space r1) as [[ws r2]|]; [|discriminate].
  destruct (many1 is_digit_or_dot r2) as [[g r3]|] eqn:E; [|discriminate].
  destruct (drop_prefix "s" r3); [|discriminate].
  injection H as <-. exact (many1_all _ _ _ _ E).
Qed.

Lemma req_per_sec_re_digits (content group1 : string) :
  req_per_sec_re content = Some group1 -> all is_digit_or_dot group1 = true.
Proof.
  intros H. apply search_some in H as [s H]. unfold req_per_sec_at in H.
  destruct (drop_prefix "Requests/sec:" s) as [r1|]; [|discriminate].
  destruct (many1 is_space r1) as [[ws r2]|]; [|discriminate].
  destruct (many1 is_digit_or_dot r2) as [[g r3]|] eqn:E; [|discriminate].
  injection H as <-. exact (many1_all _ _ _ _ E).
Qed.

(** A digit or a point is no underscore, no space, no sign and no letter. *)
Lemma plain_char (c : ascii) :
  is_digit_or_dot c = true ->
  Ascii.eqb c "_" = false /\
  is_c_space c = false /\
  Ascii.eqb (lower c) "i" = false /\
  Ascii.eqb (lower c) "n" = false /\
  forall s, split_sign (String c s) = (false, String c s).
Proof.
  destruct c as [[] [] [] [] [] [] [] []]; intros H; vm_compute in H;
    try discriminate H; repeat split; reflexivity.
Qed.

Lemma drop_underscores_plain (s : string) (prev : ascii) :
  all is_digit_or_dot s = true ->
  Ascii.eqb prev "_" = false ->
  drop_underscores prev s = Some s.
Proof.
  revert prev. induction s as [|c s IH]; intros prev Hall Hprev; simpl.
  - now rewrite Hprev.
  - simpl in Hall. apply andb_true_iff in Hall as [Hc Hs].
    destruct (plain_char c Hc) as [Hu _].
    rewrite Hu, Hprev. simpl. now rewrite (IH c Hs Hu).
Qed.

Lemma lstrip_plain (s : string) :
  all is_digit_or_dot s = true -> lstrip_by is_c_space s = s.
Proof.
  destruct s as [|c s]; [reflexivity|]. simpl. intros Hall.
  apply andb_true_iff in Hall as [Hc _].
  destruct (plain_char c Hc) as [_ [Hsp _]].
  unfold lstrip_by. simpl. now rewrite Hsp.
Qed.

Lemma rstrip_plain (s : string) :
  all is_digit_or_dot s = true -> rstrip_by is_c_space s = s.
Proof.
  induction s as [|c s IH]; [reflexivity|]. simpl. intros Hall.
  apply andb_true_iff in Hall as [Hc Hs].
  destruct (plain_char c Hc) as [_ [Hsp _]].
  rewrite (IH Hs), Hsp, andb_false_r. reflexivity.
Qed.

Lemma float_plain (s : string) :
  all is_digit_or_dot s = true ->
  float s = match parse_decimal false s with
            | Some f => Ok f
            | None => Raise ValueError
            end.
Proof.
  intros Hall. unfold float.
  rewrite (drop_underscores_plain s Ascii.zero Hall eq_refl).
  rewrite (lstrip_plain s Hall), (rstrip_plain s Hall).
  destruct s as [|c s]; [reflexivity|].
  simpl in Hall. apply andb_true_iff in Hall as [Hc _].
  destruct (plain_char c Hc) as [_ [_ [Hi [Hn Hsign]]]].
  rewrite Hsign.
  destruct (parse_decimal false (String c s)); [reflexivity|].
  unfold parse_inf_or_nan. cbn [lowercase String.eqb].
  now rewrite Hi, Hn.
Qed.

Lemma digit_value_nonneg (c : ascii) :
  is_digit c = true -> (0 <= digit_value c)%Z.
Proof.
  unfold is_digit, digit_value. intros H.
  apply andb_true_iff in H as [H _]. apply N.leb_le in H. lia.
Qed.

Lemma digits_from_nonneg (s : string) (acc : Z) :
  all is_digit s = true -> (0 <= acc)%Z -> (0 <= digits_from acc s)%Z.
Proof.
  revert acc. induction s as [|c s IH]; intros acc Hall Hacc;
    cbn [digits_from].
  - exact Hacc.
  - simpl in Hall. apply andb_true_iff in Hall as [Hc Hs].
    apply IH; [exact Hs|]. pose proof (digit_value_nonneg c Hc). lia.
Qed.

Lemma all_app (p : ascii -> bool) (s t : string) :
  all p s = true -> all p t = true -> all p (s ++ t)%string = true.
Proof.
  induction s as [|c s IH]; simpl; [auto|].
  intros H Ht. apply andb_true_iff in H as [Hc Hs].
  now rewrite Hc, (IH Hs Ht).
Qed.

Lemma nonneg_Fin (m e : Z) : (0 <= m)%Z -> nonneg (Fin false m e) = true.
Proof.
  intros Hm. unfold nonneg, Float.leb, Float.ltb, Float.eqb, pos_zero, scaled.
  rewrite Z.mul_0_l.
  assert (0 <= m * 2 ^ (e - emin))%Z
    by (apply Z.mul_nonneg_nonneg; [exact Hm|apply Z.pow_nonneg; lia]).
  apply orb_true_iff.
  destruct (Z.eq_dec 0 (m * 2 ^ (e - emin))) as [E|E].
  - right. now apply Z.eqb_eq.
  - left. apply Z.ltb_lt. lia.
Qed.

Lemma round_ratio_nonneg (n d : Z) :
  (0 <= n)%Z -> (0 < d)%Z -> nonneg (round_ratio false n d) = true.
Proof.
  intros Hn Hd. unfold round_ratio.
  destruct (n =? 0)%Z; [now apply nonneg_Fin|].
  cbv zeta.
  set (e := Z.max _ emin).
  set (num := (if (0 <=? e)%Z then n else (n * 2 ^ (- e))%Z)).
  set (den := (if (0 <=? e)%Z then (d * 2 ^ e)%Z else d)).
  assert (Hnum : (0 <= num)%Z).
  { unfold num. destruct (0 <=? e)%Z; [exact Hn|].
    apply Z.mul_nonneg_nonneg; [exact Hn|apply Z.pow_nonneg; lia]. }
  assert (Hden : (0 < den)%Z).
  { unfold den. destruct (0 <=? e)%Z eqn:E; [|exact Hd].
    apply Z.leb_le in E. apply Z.mul_pos_pos; [exact Hd|].
    apply Z.pow_pos_nonneg; lia. }
  assert (Hq : (0 <= num / den)%Z) by (apply Z.div_pos; assumption).
  set (q' := if _ : bool then (num / den + 1)%Z else (num / den)%Z).
  assert (Hq' : (0 <= q')%Z) by (unfold q'; destruct (_ || _); lia).
  destruct (q' =? 2 ^ 53)%Z.
  - destruct (emax <? e + 1)%Z; [reflexivity|]. apply nonneg_Fin. lia.
  - destruct (emax <? e)%Z; [reflexivity|]. now apply nonneg_Fin.
Qed.

Lemma parse_decimal_nonneg (body : string) (f : pyfloat) :
  parse_decimal false body = Some f -> nonneg f = true.
Proof.
  unfold parse_decimal.
  pose proof (span_all is_digit body) as Hip.
  destruct (span is_digit body) as [ip r1]. simpl in Hip.
  set (p := match r1 with
            | String "." r => span is_digit r
            | _ => (EmptyString, r1)
            end).
  assert (Hfp : all is_digit (fst p) = true).
  { unfold p. destruct r1 as [|c r]; [reflexivity|].
    destruct (Ascii.ascii_dec c ".") as [->|Hc].
    - apply span_all.
    - destruct c as [[] [] [] [] [] [] [] []]; try reflexivity. congruence. }
  destruct p as [fp r2]. simpl in Hfp.
  destruct (is_empty ip && is_empty fp); [discriminate|].
  assert (Hm : (0 <= digits_value (ip ++ fp))%Z).
  { apply digits_from_nonneg; [now apply all_app|lia]. }
  assert (Hdec : forall e10, nonneg (of_decimal false (digits_value (ip ++ fp)) e10) = true).
  { intros e10. unfold of_decimal. destruct (0 <=? e10)%Z eqn:E.
    - apply round_ratio_nonneg; [|lia].
      apply Z.mul_nonneg_nonneg; [exact Hm|apply Z.pow_nonneg; lia].
    - apply Z.leb_gt in E. apply round_ratio_nonneg; [exact Hm|].
      apply Z.pow_pos_nonneg; lia. }
  destruct r2 as [|c r3].
  - intros [= <-]. apply Hdec.
  - destruct (Ascii.eqb (lower c) "e"); [|discriminate].
    destruct (split_sign r3) as [eneg r4].
    destruct (all is_digit r4 && negb (is_empty r4)); [|discriminate].
    intros [= <-]. apply Hdec.
Qed.

Lemma float_field_nonneg (m : option string) (x : number) :
  (forall group1, m = Some group1 -> all is_digit_or_dot group1 = true) ->
  float_field m = Ok x -> number_nonneg x = true.
Proof.
  intros Hm. destruct m as [g|]; simpl.
  - rewrite (float_plain g (Hm g eq_refl)).
    destruct (parse_decimal false g) as [f|] eqn:E; [|discriminate].
    intros [= <-]. simpl. exact (parse_decimal_nonneg _ _ E).
  - now intros [= <-].
Qed.

Lemma all_digit_plain (s : string) :
  all is_digit s = true -> all is_digit_or_dot s = true.
Proof.
  induction s as [|c s IH]; simpl; [auto|].
  intros H. apply andb_true_iff in H as [Hc Hs].
  rewrite (IH Hs). unfold is_digit_or_dot. now rewrite Hc.
Qed.

Lemma total_requests_field_nonneg (m : option string) (z : Z) :
  (forall group1, m = Some group1 -> all is_digit group1 = true) ->
  total_requests_field m = Ok z -> (0 <= z)%Z.
Proof.
  intros Hm. destruct m as [g|]; simpl; [|intros [= <-]; lia].
  pose proof (Hm g eq_refl) as Hd.
  pose proof (all_digit_plain g Hd) as Hall.
  unfold int.
  rewrite (drop_underscores_plain g Ascii.zero Hall eq_refl).
  rewrite (lstrip_plain g Hall), (rstrip_plain g Hall).
  assert (Hsign : split_sign g = (false, g)).
  { destruct g as [|c g]; [reflexivity|].
    simpl in Hall. apply andb_true_iff in Hall as [Hc _].
    now destruct (plain_char c Hc) as [_ [_ [_ [_ Hsign]]]]. }
  rewrite Hsign.
  destruct (all is_digit g && negb (is_empty g)); [|discriminate].
  destruct (int_max_str_digits <? String.length g)%nat; [discriminate|].
  intros [= <-]. apply digits_from_nonneg; [exact Hd|lia].
Qed.

(** C5, as stated, fails: the percentile line [200% -5] is stored with its
    rank above 100 and its negative value. *)
Lemma rank_and_value_unchecked :
  fst (parse_content out_of_range (world_with out_of_range)) =
    Ok (Some {| total_requests := 0; duration := Int 0;
                requests_per_sec := Flt f100;
                percentiles := [(Fin false 7036874417766400 (-45),
                                 Fin true 5629499534213120 (-50))] |}) /\
  in_rank_domain (Fin false 7036874417766400 (-45)) = false /\
  nonneg (Fin true 5629499534213120 (-50)) = false /\
  data_model_invariant
    {| total_requests := 0; duration := Int 0;
       requests_per_sec := Flt f100;
       percentiles := [(Fin false 7036874417766400 (-45),
                        Fin true 5629499534213120 (-50))] |} = false.
Proof. repeat split; reflexivity. Qed.

(** C5, amended: in every report that the parse returns, the request count
    is a non-negative integer and the duration and the throughput are
    non-negative.  (The ranks and the latencies are the floats of the
    tokens, whatever their range.) *)
Theorem summary_fields_nonnegative
        (content : string) (w w' : world) (st : stats) :
  parse_content content w = (Ok (Some st), w') ->
  (0 <= total_requests st)%Z /\
  number_nonneg (duration st) = true /\
  number_nonneg (requests_per_sec st) = true.
Proof.
  intros Hparse.
  destruct (summary_fields_of_report content w w' st Hparse) as [Ht [Hd Hr]].
  split; [|split].
  - eapply total_requests_field_nonneg; [|exact Ht].
    intros g. apply total_requests_re_digits.
  - eapply float_field_nonneg; [|exact Hd].
    intros g. apply duration_re_digits.
  - eapply float_field_nonneg; [|exact Hr].
    intros g. apply req_per_sec_re_digits.
Qed.

Lemma summary_fields_nonnegative_witness :
  exists st,
    fst (parse_content reference (world_with reference)) = Ok (Some st) /\
    (0 <= total_requests st)%Z /\
    number_nonneg (duration st) = true /\
    number_nonneg (requests_per_sec st) = true.
Proof.
  eexists. split; [reflexivity|].
  exact (summary_fields_nonnegative reference (world_with reference)
           (snd (parse_content reference (world_with reference))) _ eq_refl).
Defined.

(** * Further properties of the script *)

(** ** Locating the latency section *)

Lemma drop_prefix_sound (p s r : string) :
  drop_prefix p s = Some r -> s = (p ++ r)%string.
Proof.
  revert s. induction p as [|a p IH]; intros s; simpl.
  - now intros [= ->].
  - destruct s as [|b s]; [discriminate|].
    destruct (Ascii.eqb a b) eqn:E; [|discriminate].
    apply Ascii.eqb_eq in E as ->. intros H. now rewrite (IH _ H).
Qed.

Lemma drop_prefix_complete (p r : string) :
  drop_prefix p (p ++ r)%string = Some r.
Proof.
  induction p as [|a p IH]; simpl; [reflexivity|].
  now rewrite Ascii.eqb_refl.
Qed.

Lemma drop_prefix_within (p u t r : string) :
  drop_prefix p (u ++ t)%string = Some r ->
  (String.length p <= String.length u)%nat ->
  exists x, drop_prefix p u = Some x /\ r = (x ++ t)%string.
Proof.
  revert u. induction p as [|a p IH]; intros u; simpl.
  - intros [= <-] _. now exists u.
  - destruct u as [|b u]; simpl; [lia|].
    destruct (Ascii.eqb a b); [|discriminate].
    intros H Hlen. apply IH; [exact H|lia].
Qed.

Lemma append_assoc (a b c : string) :
  ((a ++ b) ++ c = a ++ (b ++ c))%string.
Proof. induction a as [|x a IH]; simpl; [reflexivity|now rewrite IH]. Qed.

Lemma length_append (a b : string) :
  String.length (a ++ b)%string = (String.length a + String.length b)%nat.
Proof. induction a as [|x a IH]; simpl; [reflexivity|now rewrite IH]. Qed.

Lemma find_sound (needle s pre post : string) :
  find needle s = Some (pre, post) -> s = (pre ++ needle ++ post)%string.
Proof.
  revert pre. induction s as [|a s IH]; intros pre; simpl.
  - destruct (drop_prefix needle EmptyString) as [r|] eqn:E; [|discriminate].
    intros [= <- <-]. exact (drop_prefix_sound _ _ _ E).
  - destruct (drop_prefix needle (String a s)) as [r|] eqn:E.
    + intros [= <- <-]. exact (drop_prefix_sound _ _ _ E).
    + destruct (find needle s) as [[pre' post']|]; [|discriminate].
      intros [= <- <-]. simpl. now rewrite <- (IH pre' eq_refl).
Qed.

(** The text after the first occurrence of [needle] keeps everything that
    follows any occurrence of it. *)
Lemma find_keeps_tail (needle a t : string) :
  exists pre x, find needle (a ++ needle ++ t)%string = Some (pre, (x ++ t)%string).
Proof.
  induction a as [|c a IH].
  - exists EmptyString, EmptyString. simpl.
    destruct needle as [|n0 needle]; [now destruct t|].
    change (String n0 needle ++ t)%string with (String n0 (needle ++ t)%string).
    cbn [find]. change (String n0 (needle ++ t)%string)
      with (String n0 needle ++ t)%string.
    now rewrite drop_prefix_complete.
  - change (String c a ++ needle ++ t)%string
      with (String c (a ++ needle ++ t)%string).
    cbn [find].
    destruct (drop_prefix needle (String c (a ++ needle ++ t)%string)) as [r|] eqn:E.
    + change (String c (a ++ needle ++ t)%string)
        with (String c a ++ (needle ++ t))%string in E.
      rewrite <- append_assoc in E.
      apply drop_prefix_within in E as [x [_ ->]].
      * now exists EmptyString, x.
      * rewrite length_append. lia.
    + destruct IH as [pre [x ->]]. now exists (String c pre), x.
Qed.

Lemma drop_prefix_extend (p a b r : string) :
  drop_prefix p a = Some r -> drop_prefix p (a ++ b)%string = Some (r ++ b)%string.
Proof.
  revert a. induction p as [|x p IH]; intros a; simpl.
  - now intros [= <-].
  - destruct a as [|y a]; [discriminate|]. simpl.
    destruct (Ascii.eqb x y); [|discriminate]. apply IH.
Qed.

(** No occurrence of a non-empty [needle] lies within the text before its
    first occurrence. *)
Lemma find_leftmost (n0 : ascii) (needle s pre post : string) :
  find (String n0 needle) s = Some (pre, post) ->
  find (String n0 needle) pre = None.
Proof.
  revert pre. induction s as [|a s IH]; intros pre.
  - simpl. discriminate.
  - cbn [find].
    destruct (drop_prefix (String n0 needle) (String a s)) as [r|] eqn:E.
    + now intros [= <- <-].
    + destruct (find (String n0 needle) s) as [[pre' post']|] eqn:F; [|discriminate].
      intros [= <- <-]. cbn [find].
      destruct (drop_prefix (String n0 needle) (String a pre')) as [r|] eqn:E'.
      * apply find_sound in F. subst s.
        apply (drop_prefix_extend _ _ (String n0 needle ++ post')%string) in E'.
        simpl in E, E'. congruence.
      * now rewrite (IH pre' eq_refl).
Qed.

(** X1: the latency section is found exactly when the text holds the header
    [Latency distribution:] and, somewhere after it, [Requests/sec:]. *)
Theorem section_found_iff (content : string) :
  (exists block, latency_section_re content = Some block) <->
  (exists a b c, content = (a ++ header ++ b ++ footer ++ c)%string).
Proof.
  unfold latency_section_re. fold header footer. split.
  - intros [block H].
    destruct (find header content) as [[pre rest]|] eqn:Eh; [|discriminate].
    destruct (find footer rest) as [[blk post]|] eqn:Ef; [|discriminate].
    apply find_sound in Eh, Ef. exists pre, blk, post. now rewrite <- Ef.
  - intros [a [b [c ->]]].
    destruct (find_keeps_tail header a (b ++ footer ++ c)%string) as [pre [x ->]].
    rewrite <- append_assoc.
    destruct (find_keeps_tail footer (x ++ b)%string c) as [blk [y ->]].
    now exists blk.
Qed.

(** X2: the block that is parsed lies between the first header of the text
    and the first footer after it: the text before the block holds no other
    header, and the block holds no footer. *)
Theorem section_is_first_block (content block : string) :
  latency_section_re content = Some block ->
  exists pre post,
    content = (pre ++ header ++ block ++ footer ++ post)%string /\
    find header pre = None /\
    find footer block = None.
Proof.
  unfold latency_section_re. fold header footer. intros H.
  destruct (find header content) as [[pre rest]|] eqn:Eh; [|discriminate].
  destruct (find footer rest) as [[blk post]|] eqn:Ef; [|discriminate].
  injection H as <-.
  exists pre, post. repeat split.
  - apply find_sound in Eh, Ef. now rewrite <- Ef.
  - exact (find_leftmost _ _ _ _ _ Eh).
  - exact (find_leftmost _ _ _ _ _ Ef).
Qed.

Lemma section_is_first_block_witness :
  exists pre post,
    reference = (pre ++ header ++
                 unlines [""; "  50% 12.3"; "  90% 45.6"; "  95% 78.9";
                          "  99% 150.2"; ""]
                 ++ footer ++ post)%string /\
    find header pre = None.
Proof.
  destruct (section_is_first_block reference
              (unlines [""; "  50% 12.3"; "  90% 45.6"; "  95% 78.9";
                        "  99% 150.2"; ""]) eq_refl)
    as [pre [post [H1 [H2 _]]]].
  now exists pre, post.
Defined.

Lemma section_found_iff_witness :
  exists block, latency_section_re reference = Some block.
Proof.
  apply (proj2 (section_found_iff reference)).
  exists (unlines ["Summary:"; "  Total: 1000 requests"; "  in 10.0s"; ""]),
         (unlines [""; "  50% 12.3"; "  90% 45.6"; "  95% 78.9"; "  99% 150.2"; ""]),
         (" 100.0" ++ nl)%string.
  reflexivity.
Defined.

(** ** Where the summary fields come from *)

Lemma search_at {A} (match_at : string -> option A) (s : string) (a : A) :
  search match_at s = Some a ->
  exists pre s', s = (pre ++ s')%string /\ match_at s' = Some a.
Proof.
  induction s as [|c s IH]; simpl.
  - destruct (match_at EmptyString) eqn:E; [|discriminate].
    intros [= <-]. now exists EmptyString, EmptyString.
  - destruct (match_at (String c s)) eqn:E.
    + intros [= <-]. now exists EmptyString, (String c s).
    + intros H. destruct (IH H) as [pre [s' [-> H']]].
      now exists (String c pre), s'.
Qed.

Lemma span_sound (p : ascii -> bool) (s h t : string) :
  span p s = (h, t) -> s = (h ++ t)%string.
Proof.
  revert h. induction s as [|c s IH]; intros h; simpl.
  - now intros [= <- <-].
  - destruct (p c); [|now intros [= <- <-]].
    destruct (span p s) as [h' t']. intros [= <- <-].
    simpl. now rewrite (IH h' eq_refl).
Qed.

Lemma many1_sound (p : ascii -> bool) (s run rest : string) :
  many1 p s = Some (run, rest) ->
  s = (run ++ rest)%string /\ all p run = true /\ run <> EmptyString.
Proof.
  intros H. split; [|split].
  - unfold many1 in H. destruct (span p s) as [h t] eqn:E.
    destruct (is_empty h); [discriminate|]. injection H as <- <-.
    exact (span_sound _ _ _ _ E).
  - exact (many1_all _ _ _ _ H).
  - unfold many1 in H. destruct (span p s) as [h t].
    destruct h; [discriminate|]. injection H as <- _. discriminate.
Qed.

Lemma int_of_digits (g : string) :
  all is_digit g = true -> g <> EmptyString ->
  int g = if (int_max_str_digits <? String.length g)%nat
          then Raise ValueError else Ok (digits_value g).
Proof.
  intros Hd Hne. pose proof (all_digit_plain g Hd) as Hall.
  unfold int.
  rewrite (drop_underscores_plain g Ascii.zero Hall eq_refl).
  rewrite (lstrip_plain g Hall), (rstrip_plain g Hall).
  destruct g as [|c g]; [congruence|].
  pose proof Hall as Hc. simpl in Hc. apply andb_true_iff in Hc as [Hc _].
  destruct (plain_char c Hc) as [_ [_ [_ [_ Hsign]]]].
  rewrite Hsign, Hd. reflexivity.
Qed.

(** X3: the request count of a report is the decimal value of the digits
    that stand, in the text, between [Total:] and [requests] with white
    space on both sides. *)
Theorem total_requests_extracted
        (content : string) (w w' : world) (st : stats) (group1 : string) :
  parse_content content w = (Ok (Some st), w') ->
  total_requests_re content = Some group1 ->
  total_requests st = digits_value group1 /\
  exists pre ws1 ws2 post,
    content = (pre ++ "Total:" ++ ws1 ++ group1 ++ ws2 ++ "requests" ++ post)%string /\
    all is_space ws1 = true /\ ws1 <> EmptyString /\
    all is_digit group1 = true /\ group1 <> EmptyString /\
    all is_space ws2 = true /\ ws2 <> EmptyString.
Proof.
  intros Hparse Hre.
  destruct (summary_fields_of_report _ _ _ _ Hparse) as [Ht _].
  apply search_at in Hre as Hat. destruct Hat as [pre [s [-> Hat]]].
  unfold total_requests_at in Hat.
  destruct (drop_prefix "Total:" s) as [r1|] eqn:E0; [|discriminate].
  destruct (many1 is_space r1) as [[ws1 r2]|] eqn:E1; [|discriminate].
  destruct (many1 is_digit r2) as [[g r3]|] eqn:E2; [|discriminate].
  destruct (many1 is_space r3) as [[ws2 r4]|] eqn:E3; [|discriminate].
  destruct (drop_prefix "requests" r4) as [post|] eqn:E4; [|discriminate].
  injection Hat as ->.
  apply drop_prefix_sound in E0, E4.
  apply many1_sound in E1 as [E1 [A1 N1]].
  apply many1_sound in E2 as [E2 [A2 N2]].
  apply many1_sound in E3 as [E3 [A3 N3]].
  split.
  - rewrite Hre in Ht. cbn [total_requests_field] in Ht.
    rewrite (int_of_digits _ A2 N2) in Ht.
    destruct (int_max_str_digits <? String.length group1)%nat; congruence.
  - exists pre, ws1, ws2, post. subst s r1 r2 r3 r4. now repeat split.
Qed.

Lemma total_requests_extracted_witness :
  total_requests
    {| total_requests := 1000; duration := Flt f10;
       requests_per_sec := Flt f100;
       percentiles := [(f50, f12_3); (f90, f45_6); (f95, f78_9); (f99, f150_2)] |}
  = digits_value "1000".
Proof.
  exact (proj1 (total_requests_extracted reference (world_with reference)
                  (world_with reference) _ "1000" eq_refl eq_refl)).
Defined.

(** X4: the duration and the throughput of a report are the floats of the
    runs of digits and points that stand, in the text, after [in] and white
    space and before [s], and after [Requests/sec:] and white space. *)
Theorem float_fields_extracted
        (content : string) (w w' : world) (st : stats) :
  parse_content content w = (Ok (Some st), w') ->
  (forall group1, duration_re content = Some group1 ->
     (exists f, float group1 = Ok f /\ duration st = Flt f) /\
     exists pre ws post,
       content = (pre ++ "in" ++ ws ++ group1 ++ "s" ++ post)%string /\
       all is_space ws = true /\ ws <> EmptyString /\
       all is_digit_or_dot group1 = true /\ group1 <> EmptyString) /\
  (forall group1, req_per_sec_re content = Some group1 ->
     (exists f, float group1 = Ok f /\ requests_per_sec st = Flt f) /\
     exists pre ws post,
       content = (pre ++ "Requests/sec:" ++ ws ++ group1 ++ post)%string /\
       all is_space ws = true /\ ws <> EmptyString /\
       all is_digit_or_dot group1 = true /\ group1 <> EmptyString).
Proof.
  intros Hparse.
  destruct (summary_fields_of_report _ _ _ _ Hparse) as [_ [Hd Hr]].
  split; intros group1 Hre.
  - split.
    + rewrite Hre in Hd. cbn in Hd.
      destruct (float group1) as [f|]; [|discriminate].
      exists f. split; [reflexivity|]. cbn in Hd. congruence.
    + apply search_at in Hre as [pre [s [-> Hat]]].
      unfold duration_at in Hat.
      destruct (drop_prefix "in" s) as [r1|] eqn:E0; [|discriminate].
      destruct (many1 is_space r1) as [[ws r2]|] eqn:E1; [|discriminate].
      destruct (many1 is_digit_or_dot r2) as [[g r3]|] eqn:E2; [|discriminate].
      destruct (drop_prefix "s" r3) as [post|] eqn:E3; [|discriminate].
      injection Hat as ->.
      apply drop_prefix_sound in E0, E3.
      apply many1_sound in E1 as [E1 [A1 N1]].
      apply many1_sound in E2 as [E2 [A2 N2]].
      exists pre, ws, post. subst s r1 r2 r3. now repeat split.
  - split.
    + rewrite Hre in Hr. cbn in Hr.
      destruct (float group1) as [f|]; [|discriminate].
      exists f. split; [reflexivity|]. cbn in Hr. congruence.
    + apply search_at in Hre as [pre [s [-> Hat]]].
      unfold req_per_sec_at in Hat.
      destruct (drop_prefix "Requests/sec:" s) as [r1|] eqn:E0; [|discriminate].
      destruct (many1 is_space r1) as [[ws r2]|] eqn:E1; [|discriminate].
      destruct (many1 is_digit_or_dot r2) as [[g post]|] eqn:E2; [|discriminate].
      injection Hat as ->.
      apply drop_prefix_sound in E0.
      apply many1_sound in E1 as [E1 [A1 N1]].
      apply many1_sound in E2 as [E2 [A2 N2]].
      exists pre, ws, post. subst s r1 r2. now repeat split.
Qed.

Lemma float_fields_extracted_witness :
  exists f, float "10.0" = Ok f /\ Flt f10 = Flt f.
Proof.
  exact (proj1 (proj1 (float_fields_extracted reference (world_with reference)
                         (world_with reference)
                         {| total_requests := 1000; duration := Flt f10;
                            requests_per_sec := Flt f100;
                            percentiles := [(f50, f12_3); (f90, f45_6);
                                            (f95, f78_9); (f99, f150_2)] |}
                         eq_refl) "10.0" eq_refl)).
Defined.

(** ** What the parse raises and what it leaves alone *)

Lemma int_raises_ValueError (s : string) (e : exn) :
  int s = Raise e -> e = ValueError.
Proof.
  unfold int.
  destruct (drop_underscores Ascii.zero s) as [s1|]; [|congruence].
  destruct (split_sign _) as [neg body].
  destruct (all is_digit body && negb (is_empty body)); [|congruence].
  destruct (int_max_str_digits <? String.length body)%nat; congruence.
Qed.

Lemma float_field_raises (m : option string) (e : exn) :
  float_field m = Raise e -> e = ValueError.
Proof.
  destruct m as [g|]; simpl; [|discriminate].
  destruct (float g) as [f|e'] eqn:E; simpl; [discriminate|].
  intros [= <-]. exact (float_raises_ValueError _ _ E).
Qed.

Lemma build_stats_raises (content : string) (d : dict) (e : exn) :
  build_stats content d = Raise e <->
  e = ValueError /\
  (total_requests_field (total_requests_re content) = Raise ValueError \/
   float_field (duration_re content) = Raise ValueError \/
   float_field (req_per_sec_re content) = Raise ValueError).
Proof.
  unfold build_stats.
  destruct (total_requests_field (total_requests_re content)) as [t|e1] eqn:Et.
  2:{ assert (e1 = ValueError) as ->.
      { destruct (total_requests_re content); simpl in Et; [|discriminate].
        exact (int_raises_ValueError _ _ Et). }
      simpl. split; [intros [= <-]; auto|intros [-> _]; reflexivity]. }
  destruct (float_field (duration_re content)) as [du|e2] eqn:Ed.
  2:{ rewrite (float_field_raises _ _ Ed). simpl.
      split; [intros [= <-]; auto|intros [-> _]; reflexivity]. }
  destruct (float_field (req_per_sec_re content)) as [rq|e3] eqn:Er.
  2:{ rewrite (float_field_raises _ _ Er). simpl.
      split; [intros [= <-]; auto|intros [-> _]; reflexivity]. }
  simpl. split; [discriminate|]. intros [_ [H|[H|H]]]; discriminate.
Qed.


(** X6: reading and parsing a report saves nothing and changes no file; it
    prints one line, the missing-section error, exactly when it returns no
    report, and nothing otherwise. *)
Theorem parse_hey_output_frame (filename : string) (w : world) :
  files (snd (parse_hey_output filename w)) = files w /\
  writable (snd (parse_hey_output filename w)) = writable w /\
  saved (snd (parse_hey_output filename w)) = saved w /\
  (fst (parse_hey_output filename w) = Ok None ->
   stdout (snd (parse_hey_output filename w)) = stdout w ++ [MsgNoSection]) /\
  (fst (parse_hey_output filename w) <> Ok None ->
   stdout (snd (parse_hey_output filename w)) = stdout w).
Proof.
  unfold parse_hey_output, bind, read_text.
  destruct (files w filename) as [content|].
  - destruct (latency_section_re content) as [block|] eqn:Es.
    + rewrite (parse_content_section _ _ _ Es). cbn.
      repeat split; try reflexivity.
      destruct (build_stats _ _); discriminate.
    + unfold parse_content. rewrite Es. cbn.
      repeat split; try reflexivity. congruence.
  - cbn. repeat split; try reflexivity. discriminate.
Qed.

Lemma parse_hey_output_frame_witness :
  stdout (snd (parse_hey_output "hey.txt" (world_with no_section))) = [MsgNoSection] /\
  stdout (snd (parse_hey_output "hey.txt" (world_with reference))) = [].
Proof.
  split.
  - apply (proj1 (proj2 (proj2 (proj2 (parse_hey_output_frame "hey.txt"
                                         (world_with no_section)))))).
    reflexivity.
  - apply (proj2 (proj2 (proj2 (proj2 (parse_hey_output_frame "hey.txt"
                                         (world_with reference)))))).
    discriminate.
Defined.


(** ** The percentile mapping *)

Lemma dict_set_forall (P : pyfloat -> bool) (d : dict) (k v : pyfloat) :
  forallb (fun kv => P (fst kv)) d = true -> P k = true ->
  forallb (fun kv => P (fst kv)) (dict_set d k v) = true.
Proof.
  intros Hd Hk. induction d as [|[k' v'] d IH]; simpl in *.
  - now rewrite Hk.
  - apply andb_true_iff in Hd as [H1 H2].
    destruct (Float.eqb k' k); simpl; rewrite H1; simpl; auto.
Qed.

Lemma dict_set_distinct (d : dict) (k v : pyfloat) :
  keys_distinct d = true -> keys_distinct (dict_set d k v) = true.
Proof.
  induction d as [|[k' v'] d IH]; simpl; [reflexivity|].
  intros H. apply andb_true_iff in H as [H1 H2].
  destruct (Float.eqb k' k) eqn:E; simpl.
  - now rewrite H1, H2.
  - rewrite (IH H2), andb_true_r.
    apply (dict_set_forall (fun x => negb (Float.eqb k' x))); [exact H1|].
    now rewrite E.
Qed.

Lemma fold_store_distinct (lines : list string) (d : dict) :
  keys_distinct d = true -> keys_distinct (fold_left store lines d) = true.
Proof.
  revert d. induction lines as [|l lines IH]; intros d Hd; simpl; [exact Hd|].
  apply IH. unfold store. destruct (line_entry l) as [[k v]|]; [|exact Hd].
  now apply dict_set_distinct.
Qed.

(** X7: whatever the block holds, no two keys of the parsed mapping are
    equal: a rank occurs in it once. *)
Theorem parsed_keys_distinct (latency_text : string) :
  exists d, parse_percentiles latency_text = Ok d /\ keys_distinct d = true.
Proof.
  unfold parse_percentiles. rewrite percentile_loop_fold.
  eexists. split; [reflexivity|]. now apply fold_store_distinct.
Qed.

Lemma store_without_percent (d : dict) (line : string) :
  contains "%" line = false -> store d line = d.
Proof. intros H. unfold store, line_entry. now rewrite H. Qed.

Lemma fold_store_filter (lines : list string) (d : dict) :
  fold_left store (filter (contains "%") lines) d = fold_left store lines d.
Proof.
  revert d. induction lines as [|l lines IH]; intros d; simpl; [reflexivity|].
  destruct (contains "%" l) eqn:E; simpl.
  - apply IH.
  - now rewrite (store_without_percent d l E).
Qed.

(** X8: the lines of the block without a [%] sign play no part: the block
    parses as its lines with a [%] sign alone do. *)
Theorem lines_without_percent_ignored (latency_text : string) :
  parse_percentiles latency_text =
    percentile_loop [] (filter (contains "%") (split_on "010" latency_text)).
Proof.
  unfold parse_percentiles.
  now rewrite !percentile_loop_fold, fold_store_filter.
Qed.

Lemma dict_set_not_nil (d : dict) (k v : pyfloat) : dict_set d k v <> [].
Proof.
  destruct d as [|[k' v'] d]; simpl; [discriminate|].
  destruct (Float.eqb k' k); discriminate.
Qed.

Lemma fold_store_not_nil (lines : list string) (d : dict) :
  d <> [] -> fold_left store lines d <> [].
Proof.
  revert d. induction lines as [|l lines IH]; intros d Hd; simpl; [exact Hd|].
  apply IH. unfold store. destruct (line_entry l) as [[k v]|]; [|exact Hd].
  apply dict_set_not_nil.
Qed.

Lemma fold_store_nil (lines : list string) :
  fold_left store lines [] = [] <->
  forall line, In line lines -> line_entry line = None.
Proof.
  induction lines as [|l lines IH]; simpl.
  - split; [intros _ line []|reflexivity].
  - unfold store at 2. destruct (line_entry l) as [[k v]|] eqn:E.
    + split.
      * intros H. exfalso. revert H. apply fold_store_not_nil. discriminate.
      * intros H. specialize (H l (or_introl eq_refl)). congruence.
    + rewrite IH. split.
      * intros H line [<-|Hin]; auto.
      * intros H line Hin. apply H. now right.
Qed.

(** X9: the parsed mapping is empty exactly when no line of the block gives
    an entry, that is when every line lacks a [%] sign, or a second token,
    or a numeric rank or value. *)
Theorem empty_mapping_iff (latency_text : string) :
  parse_percentiles latency_text = Ok [] <->
  forall line, In line (split_on "010" latency_text) ->
    contains "%" line = false \/
    (List.length (split (strip line)) < 2)%nat \/
    exists part0 part1 rest,
      split (strip line) = part0 :: part1 :: rest /\
      (float part1 = Raise ValueError \/
       float (rstrip "%" part0) = Raise ValueError).
Proof.
  unfold parse_percentiles. rewrite percentile_loop_fold.
  split.
  - intros [= H] line Hin.
    pose proof (proj1 (fold_store_nil _) H line Hin) as Hl.
    unfold line_entry in Hl.
    destruct (contains "%" line); [|now left]. right.
    destruct (split (strip line)) as [|part0 [|part1 rest]];
      [left; simpl; lia|left; simpl; lia|].
    right. exists part0, part1, rest. split; [reflexivity|].
    destruct (float part1) as [v|e] eqn:E1.
    + destruct (float (rstrip "%" part0)) as [k|e] eqn:E0; [discriminate|].
      right. now rewrite (float_raises_ValueError _ _ E0).
    + left. now rewrite (float_raises_ValueError _ _ E1).
  - intros H. f_equal. apply fold_store_nil. intros line Hin.
    unfold line_entry.
    destruct (H line Hin) as [->|[Hlen|[p0 [p1 [r [-> Hf]]]]]]; [reflexivity| |].
    + destruct (contains "%" line); [|reflexivity].
      destruct (split (strip line)) as [|part0 [|part1 rest]];
        try reflexivity. simpl in Hlen. lia.
    + destruct (contains "%" line); [|reflexivity].
      destruct Hf as [->| ->]; [reflexivity|]. now destruct (float p1).
Qed.

(** An ascending list continued by a greater element. *)
Lemma ltb_trans (x y z : pyfloat) :
  Float.ltb x y = true -> Float.ltb y z = true -> Float.ltb x z = true.
Proof.
  destruct x as [|sx|sx mx ex], y as [|sy|sy my ey], z as [|sz|sz mz ez];
    simpl; try discriminate; try tauto;
    try (destruct sx; simpl; congruence);
    try (destruct sy; simpl; congruence);
    try (destruct sx, sy; simpl; congruence).
  rewrite !Z.ltb_lt. lia.
Qed.

Lemma ltb_not_eqb (x y : pyfloat) :
  Float.ltb x y = true -> Float.eqb x y = false.
Proof.
  destruct x as [|sx|sx mx ex], y as [|sy|sy my ey]; simpl;
    try discriminate; try reflexivity.
  - destruct sx, sy; simpl; congruence.
  - rewrite Z.ltb_lt, Z.eqb_neq. lia.
Qed.

Lemma ascending_cons (a : pyfloat) (l : list pyfloat) :
  ascending (a :: l) = true ->
  ascending l = true /\ forall y, In y l -> Float.ltb a y = true.
Proof.
  revert a. induction l as [|b l IH]; intros a H.
  - split; [reflexivity|intros y []].
  - change (ascending (a :: b :: l))
      with (Float.ltb a b && ascending (b :: l)) in H.
    apply andb_true_iff in H as [H1 H2].
    split; [exact H2|].
    intros y [<-|Hy]; [exact H1|].
    exact (ltb_trans _ _ _ H1 (proj2 (IH b H2) y Hy)).
Qed.

Lemma ascending_below (l r : list pyfloat) (k x : pyfloat) :
  ascending (l ++ k :: r) = true -> In x l -> Float.ltb x k = true.
Proof.
  induction l as [|a l IH]; [intros _ []|].
  change ((a :: l) ++ k :: r) with (a :: (l ++ k :: r)).
  intros H Hin. apply ascending_cons in H as [Ht Ha].
  destruct Hin as [<-|Hin]; [|exact (IH Ht Hin)].
  apply Ha. apply in_elt.
Qed.

Lemma dict_set_fresh (d : dict) (k v : pyfloat) :
  (forall x, In x (keys d) -> Float.eqb x k = false) ->
  dict_set d k v = d ++ [(k, v)].
Proof.
  induction d as [|[k' v'] d IH]; simpl; [reflexivity|].
  intros H. rewrite (H k' (or_introl eq_refl)).
  f_equal. apply IH. intros x Hx. apply H. now right.
Qed.

Lemma fold_entries (lines : list string) (d : dict) :
  fold_left store lines d =
    fold_left (fun d kv => dict_set d (fst kv) (snd kv)) (entries lines) d.
Proof.
  revert d. induction lines as [|l lines IH]; intros d; [reflexivity|].
  unfold entries. cbn [fold_left flat_map]. fold (entries lines).
  rewrite fold_left_app, IH. unfold store.
  now destruct (line_entry l) as [[k v]|].
Qed.

Lemma fold_set_ascending (es d : list (pyfloat * pyfloat)) :
  ascending (keys d ++ keys es) = true ->
  fold_left (fun d kv => dict_set d (fst kv) (snd kv)) es d = d ++ es.
Proof.
  revert d. induction es as [|[k v] es IH]; intros d H; simpl.
  - now rewrite app_nil_r.
  - rewrite (dict_set_fresh d k v).
    + rewrite IH; [now rewrite <- app_assoc|].
      unfold keys in *. rewrite map_app, <- app_assoc. exact H.
    + intros x Hx. apply ltb_not_eqb.
      exact (ascending_below _ _ _ _ H Hx).
Qed.

(** X10: when the entries of the block come in strictly ascending rank
    order, the mapping holds exactly these entries in that order, and the
    curve drawn from it is in ascending rank order. *)
Theorem ascending_block_ascending_curve (latency_text : string) (st : stats) :
  ascending (keys (entries (split_on "010" latency_text))) = true ->
  parse_percentiles latency_text = Ok (percentiles st) ->
  percentiles st = entries (split_on "010" latency_text) /\
  ascending (curve_x (draw st)) = true.
Proof.
  intros Hasc Hparse.
  unfold parse_percentiles in Hparse.
  rewrite percentile_loop_fold, fold_entries in Hparse.
  rewrite (fold_set_ascending _ [] Hasc) in Hparse.
  injection Hparse as Hp. simpl in Hp.
  split; [now symmetry|].
  change (curve_x (draw st)) with (keys (percentiles st)).
  now rewrite <- Hp.
Qed.

Lemma ascending_block_ascending_curve_witness :
  ascending [f50; f90; f95; f99] = true.
Proof.
  exact (proj2 (ascending_block_ascending_curve
                  (unlines ["  50% 12.3"; "  90% 45.6"; "  95% 78.9"; "  99% 150.2"])
                  {| total_requests := 1000; duration := Flt f10;
                     requests_per_sec := Flt f100;
                     percentiles := [(f50, f12_3); (f90, f45_6);
                                     (f95, f78_9); (f99, f150_2)] |}
                  eq_refl eq_refl)).
Defined.

(** ** The runs of [main] *)

(** A run, case by case: its exit status, what it prints and what it
    saves. *)
Lemma main_run (argv : list string) (w : world) :
  (fst (run argv w), stdout (snd (run argv w)), saved (snd (run argv w))) =
    match nth_error argv 1 with
    | None => (1%Z, stdout w ++ [MsgUsage], saved w)
    | Some input_file =>
        match files w input_file with
        | None => (1%Z, stdout w ++ [MsgError OSError], saved w)
        | Some content =>
            match latency_section_re content with
            | None => (1%Z, stdout w ++ [MsgNoSection; MsgFailedToParse], saved w)
            | Some block =>
                match build_stats content
                        (fold_left store (split_on "010" block) []) with
                | Raise _ => (1%Z, stdout w ++ [MsgError ValueError], saved w)
                | Ok st =>
                    match percentiles st with
                    | [] => (0%Z, stdout w ++ [MsgNoData], saved w)
                    | _ :: _ =>
                        if writable w (output_path argv)
                        then (0%Z, stdout w ++ [MsgSaved (output_path argv)],
                              saved w ++ [(output_path argv, draw st)])
                        else (1%Z, stdout w ++ [MsgError OSError], saved w)
                    end
                end
            end
        end
    end.
Proof.
  unfold run, main.
  destruct (List.length argv <? 2)%nat eqn:Hlen.
  - apply Nat.ltb_lt in Hlen.
    destruct argv as [|a0 [|a1 argv]]; simpl in Hlen; try lia; reflexivity.
  - apply Nat.ltb_ge in Hlen.
    destruct argv as [|a0 [|a1 argv]]; simpl in Hlen; try lia.
    generalize (output_path (a0 :: a1 :: argv)) as out. intros out.
    cbn [nth_error index lift bind].
    unfold try_except_Exception, parse_hey_output, bind, read_text.
    destruct (files w a1) as [content|]; [|reflexivity].
    destruct (latency_section_re content) as [block|] eqn:Es.
    + rewrite (parse_content_section _ _ _ Es).
      set (d := fold_left store _ _).
      destruct (build_stats content d) as [st|e] eqn:Eb.
      * unfold create_latency_plot.
        destruct (percentiles st) as [|kv d']; [reflexivity|].
        unfold bind, savefig.
        destruct (writable w out); reflexivity.
      * destruct (proj1 (build_stats_raises _ _ _) Eb) as [-> _]. reflexivity.
    + unfold parse_content. rewrite Es. cbn.
      now rewrite <- app_assoc.
Qed.

(** X11: a run ends with status 0 or 1, and with 0 only when the input file
    was read and parsed to a report. *)
Theorem exit_status_range (argv : list string) (w : world) :
  (fst (run argv w) = 0%Z \/ fst (run argv w) = 1%Z) /\
  (fst (run argv w) = 0%Z ->
   exists input_file content st,
     nth_error argv 1 = Some input_file /\
     files w input_file = Some content /\
     fst (parse_content content w) = Ok (Some st)).
Proof.
  pose proof (main_run argv w) as H.
  destruct (nth_error argv 1) as [input_file|];
    [|injection H as -> _ _; split; [now right|discriminate]].
  destruct (files w input_file) as [content|] eqn:Ef;
    [|injection H as -> _ _; split; [now right|discriminate]].
  destruct (latency_section_re content) as [block|] eqn:Es;
    [|injection H as -> _ _; split; [now right|discriminate]].
  assert (Hp : forall st, build_stats content
                 (fold_left store (split_on "010" block) []) = Ok st ->
               exists i c s, Some input_file = Some i /\ files w i = Some c /\
                 fst (parse_content c w) = Ok (Some s)).
  { intros st E. exists input_file, content, st.
    rewrite (parse_content_section _ _ _ Es), E. auto. }
  destruct (build_stats content _) as [st|e];
    [|injection H as -> _ _; split; [now right|discriminate]].
  destruct (percentiles st);
    [injection H as -> _ _; split; [now left|intros _; now apply (Hp st)]|].
  destruct (writable w (output_path argv)); injection H as -> _ _.
  - split; [now left|intros _; now apply (Hp st)].
  - split; [now right|discriminate].
Qed.

Lemma exit_status_range_witness :
  exists input_file content st,
    nth_error argv1 1 = Some input_file /\
    files (world_with reference) input_file = Some content /\
    fst (parse_content content (world_with reference)) = Ok (Some st).
Proof.
  exact (proj2 (exit_status_range argv1 (world_with reference)) eq_refl).
Defined.

(** X12: when the input file cannot be read, the run prints the error,
    saves nothing and ends with status 1. *)
Theorem unreadable_input_run (argv : list string) (w : world) (input_file : string) :
  nth_error argv 1 = Some input_file ->
  files w input_file = None ->
  fst (run argv w) = 1%Z /\
  stdout (snd (run argv w)) = stdout w ++ [MsgError OSError] /\
  saved (snd (run argv w)) = saved w.
Proof.
  intros Ha Hf. pose proof (main_run argv w) as H.
  rewrite Ha, Hf in H. now injection H as -> -> ->.
Qed.

Lemma unreadable_input_run_witness :
  fst (run ["plot_latency.py"; "missing.txt"] (world_with reference)) = 1%Z /\
  stdout (snd (run ["plot_latency.py"; "missing.txt"] (world_with reference)))
    = [MsgError OSError] /\
  saved (snd (run ["plot_latency.py"; "missing.txt"] (world_with reference))) = [].
Proof.
  exact (unreadable_input_run ["plot_latency.py"; "missing.txt"]
           (world_with reference) "missing.txt" eq_refl eq_refl).
Defined.

(** X13: on a report without latency section the run prints two lines, the
    missing-section error of the parser and then the parse failure of
    [main], saves nothing and ends with status 1. *)
Theorem no_section_run
        (argv : list string) (w : world) (input_file content : string) :
  nth_error argv 1 = Some input_file ->
  files w input_file = Some content ->
  latency_section_re content = None ->
  fst (run argv w) = 1%Z /\
  stdout (snd (run argv w)) = stdout w ++ [MsgNoSection; MsgFailedToParse] /\
  saved (snd (run argv w)) = saved w.
Proof.
  intros Ha Hf Hs. pose proof (main_run argv w) as H.
  rewrite Ha, Hf, Hs in H. now injection H as -> -> ->.
Qed.

Lemma no_section_run_witness :
  fst (run argv1 (world_with no_section)) = 1%Z /\
  stdout (snd (run argv1 (world_with no_section)))
    = [MsgNoSection; MsgFailedToParse] /\
  saved (snd (run argv1 (world_with no_section))) = [].
Proof.
  exact (no_section_run argv1 (world_with no_section) "hey.txt" no_section
           eq_refl eq_refl eq_refl).
Defined.

(** X14: when the parse raises, [main] catches it: the run prints the
    error, saves nothing and ends with status 1. *)
Theorem parse_error_run
        (argv : list string) (w w' : world) (input_file : string) (e : exn) :
  nth_error argv 1 = Some input_file ->
  parse_hey_output input_file w = (Raise e, w') ->
  fst (run argv w) = 1%Z /\
  stdout (snd (run argv w)) = stdout w ++ [MsgError e] /\
  saved (snd (run argv w)) = saved w.
Proof.
  intros Ha Hp. pose proof (main_run argv w) as H. rewrite Ha in H.
  unfold parse_hey_output, bind, read_text in Hp.
  destruct (files w input_file) as [content|].
  - destruct (latency_section_re content) as [block|] eqn:Es.
    + rewrite (parse_content_section _ _ _ Es) in Hp.
      destruct (build_stats content _) as [st|e'] eqn:Eb; [discriminate|].
      destruct (proj1 (build_stats_raises _ _ _) Eb) as [-> _].
      injection Hp as <- _. now injection H as -> -> ->.
    + unfold parse_content in Hp. rewrite Es in Hp. discriminate.
  - injection Hp as <- _. now injection H as -> -> ->.
Qed.

Lemma parse_error_run_witness :
  fst (run argv1 (world_with bad_rate)) = 1%Z /\
  stdout (snd (run argv1 (world_with bad_rate))) = [MsgError ValueError] /\
  saved (snd (run argv1 (world_with bad_rate))) = [].
Proof.
  exact (parse_error_run argv1 (world_with bad_rate) (world_with bad_rate)
           "hey.txt" ValueError eq_refl eq_refl).
Defined.

(** X15: when the report has percentile entries but the image cannot be
    saved at the output path, the run prints the error (and no success
    line), saves nothing and ends with status 1. *)
Theorem unwritable_output_run
        (argv : list string) (w : world) (input_file content : string)
        (st : stats) :
  nth_error argv 1 = Some input_file ->
  files w input_file = Some content ->
  fst (parse_content content w) = Ok (Some st) ->
  percentiles st <> [] ->
  writable w (output_path argv) = false ->
  fst (run argv w) = 1%Z /\
  stdout (snd (run argv w)) = stdout w ++ [MsgError OSError] /\
  saved (snd (run argv w)) = saved w.
Proof.
  intros Ha Hf Hp Hne Hw. pose proof (main_run argv w) as H.
  rewrite Ha, Hf in H.
  destruct (latency_section_re content) as [block|] eqn:Es.
  2:{ unfold parse_content in Hp. rewrite Es in Hp. discriminate. }
  rewrite (parse_content_section _ _ _ Es) in Hp. cbn in Hp.
  destruct (build_stats content _) as [st'|e]; [|discriminate].
  injection Hp as ->.
  destruct (percentiles st); [congruence|].
  rewrite Hw in H. now injection H as -> -> ->.
Qed.

Lemma unwritable_output_run_witness :
  fst (run argv1 (initial (one_file reference) (fun _ => false))) = 1%Z /\
  stdout (snd (run argv1 (initial (one_file reference) (fun _ => false))))
    = [MsgError OSError] /\
  saved (snd (run argv1 (initial (one_file reference) (fun _ => false)))) = [].
Proof.
  apply (unwritable_output_run argv1 (initial (one_file reference) (fun _ => false))
           "hey.txt" reference
           {| total_requests := 1000; duration := Flt f10;
              requests_per_sec := Flt f100;
              percentiles := [(f50, f12_3); (f90, f45_6);
                              (f95, f78_9); (f99, f150_2)] |});
    try reflexivity. discriminate.
Defined.

(** X16: when the report has percentile entries and the output path can be
    written, the run saves one image, the chart of the report, at the path
    given as second argument (at [latency_plot.png] without one), prints the
    success line with that path and ends with status 0. *)
Theorem successful_run
        (argv : list string) (w : world) (input_file content : string)
        (st : stats) :
  nth_error argv 1 = Some input_file ->
  files w input_file = Some content ->
  fst (parse_content content w) = Ok (Some st) ->
  percentiles st <> [] ->
  writable w (output_path argv) = true ->
  fst (run argv w) = 0%Z /\
  stdout (snd (run argv w)) = stdout w ++ [MsgSaved (output_path argv)] /\
  saved (snd (run argv w)) = saved w ++ [(output_path argv, draw st)] /\
  output_path argv = nth 2 argv "latency_plot.png".
Proof.
  intros Ha Hf Hp Hne Hw. pose proof (main_run argv w) as H.
  rewrite Ha, Hf in H.
  destruct (latency_section_re content) as [block|] eqn:Es.
  2:{ unfold parse_content in Hp. rewrite Es in Hp. discriminate. }
  rewrite (parse_content_section _ _ _ Es) in Hp. cbn in Hp.
  destruct (build_stats content _) as [st'|e]; [|discriminate].
  injection Hp as ->.
  destruct (percentiles st); [congruence|].
  rewrite Hw in H. injection H as -> -> ->. repeat split.
  unfold output_path, default_output.
  destruct (2 <? List.length argv)%nat eqn:E; [reflexivity|].
  apply Nat.ltb_ge in E. symmetry. now apply nth_overflow.
Qed.

Lemma successful_run_witness :
  fst (run ["plot_latency.py"; "hey.txt"; "out.png"] (world_with reference)) = 0%Z /\
  stdout (snd (run ["plot_latency.py"; "hey.txt"; "out.png"] (world_with reference)))
    = [MsgSaved "out.png"].
Proof.
  destruct (successful_run ["plot_latency.py"; "hey.txt"; "out.png"]
              (world_with reference) "hey.txt" reference
              {| total_requests := 1000; duration := Flt f10;
                 requests_per_sec := Flt f100;
                 percentiles := [(f50, f12_3); (f90, f45_6);
                                 (f95, f78_9); (f99, f150_2)] |}
              eq_refl eq_refl eq_refl)
    as [H1 [H2 _]]; [discriminate|reflexivity|].
  split; [exact H1|exact H2].
Defined.

(** ** From the block to the annotations of the chart *)

Lemma dict_get_eqb (d : dict) (k k2 : pyfloat) :
  Float.eqb k k2 = true -> dict_get d k = dict_get d k2.
Proof.
  intros E. induction d as [|[k' v'] d IH]; simpl; [reflexivity|].
  destruct (Float.eqb k' k) eqn:E1, (Float.eqb k' k2) eqn:E2;
    try reflexivity; try exact IH.
  - now rewrite (eqb_trans _ _ _ E1 E) in E2.
  - rewrite eqb_sym in E. now rewrite (eqb_trans _ _ _ E2 E) in E1.
Qed.

Lemma fold_store_absent (lines : list string) (d : dict) (k : pyfloat) :
  dict_get d k = None ->
  (forall line k' v, In line lines -> line_entry line = Some (k', v) ->
                     Float.eqb k' k = false) ->
  dict_get (fold_left store lines d) k = None.
Proof.
  revert d. induction lines as [|l lines IH]; intros d Hd Hl; simpl; [exact Hd|].
  apply IH.
  - unfold store. destruct (line_entry l) as [[k' v]|] eqn:E; [|exact Hd].
    rewrite dict_get_set_other; [exact Hd|].
    apply (Hl l k' v); [now left|exact E].
  - intros line k' v Hin. apply Hl. now right.
Qed.

(** X17: when the last line of the block that carries one of the ranks 50,
    90, 95 and 99 gives it the value [v], the chart marks that rank with a
    reference line labelled [v], and the summary panel lists [v] for it. *)
Theorem key_rank_annotated
        (latency_text : string) (before after : list string) (line : string)
        (key value : pyfloat) (p : Z) (st : stats) :
  split_on "010" latency_text = before ++ line :: after ->
  line_entry line = Some (key, value) ->
  Float.eqb key (of_Z p) = true ->
  In p key_percentiles ->
  (forall l k v, In l after -> line_entry l = Some (k, v) ->
                 Float.eqb k key = false) ->
  parse_percentiles latency_text = Ok (percentiles st) ->
  In (p, value) (key_lines (draw st)) /\
  In (Flt value) (summary_keys (draw st)).
Proof.
  intros Hsplit Hline Hp Hin Hlater Hparse.
  unfold parse_percentiles in Hparse.
  rewrite Hsplit, percentile_loop_fold in Hparse. injection Hparse as Hd.
  assert (Hkey : Float.eqb key key = true).
  { apply (eqb_trans _ (of_Z p)); [exact Hp|]. now rewrite eqb_sym. }
  assert (Hget : dict_get (percentiles st) (of_Z p) = Some value).
  { rewrite <- (dict_get_eqb _ _ _ Hp), <- Hd.
    now apply fold_store_captured. }
  split.
  - cbn [draw key_lines]. apply in_flat_map. exists p.
    split; [exact Hin|]. rewrite Hget. now left.
  - cbn [draw summary_keys]. apply in_map_iff. exists p.
    split; [|exact Hin]. unfold get_or_0. now rewrite Hget.
Qed.

Lemma key_rank_annotated_witness :
  In (50%Z, f78_9)
     (key_lines (draw {| total_requests := 0; duration := Int 0;
                         requests_per_sec := Int 0;
                         percentiles := [(f50, f78_9)] |})).
Proof.
  apply (key_rank_annotated (unlines ["50% 12.3"; "50.0% 78.9"])
           ["50% 12.3"] [""] "50.0% 78.9" f50 f78_9 50
           {| total_requests := 0; duration := Int 0;
              requests_per_sec := Int 0; percentiles := [(f50, f78_9)] |});
    try reflexivity.
  - now left.
  - intros l k v [<-|[]]. discriminate.
Defined.

(** X18: when no line of the block carries one of the ranks 50, 90, 95 and
    99, the chart has no reference line for that rank and the summary panel
    lists the integer 0 for it. *)
Theorem key_rank_absent
        (latency_text : string) (p : Z) (st : stats) :
  (forall line k v, In line (split_on "010" latency_text) ->
                    line_entry line = Some (k, v) ->
                    Float.eqb k (of_Z p) = false) ->
  parse_percentiles latency_text = Ok (percentiles st) ->
  (forall v, ~ In (p, v) (key_lines (draw st))) /\
  get_or_0 (percentiles st) p = Int 0.
Proof.
  intros Hnone Hparse.
  unfold parse_percentiles in Hparse.
  rewrite percentile_loop_fold in Hparse. injection Hparse as Hd.
  assert (Hget : dict_get (percentiles st) (of_Z p) = None).
  { rewrite <- Hd. now apply fold_store_absent. }
  split.
  - intros v Hin. cbn [draw key_lines] in Hin.
    apply in_flat_map in Hin as [q [_ Hq]].
    destruct (dict_get (percentiles st) (of_Z q)) as [v'|] eqn:E; [|exact Hq].
    destruct Hq as [[= -> ->]|[]]. congruence.
  - unfold get_or_0. now rewrite Hget.
Qed.

Lemma key_rank_absent_witness :
  get_or_0 [(f50, f12_3)] 99 = Int 0.
Proof.
  apply (key_rank_absent (unlines ["50% 12.3"]) 99
           {| total_requests := 0; duration := Int 0;
              requests_per_sec := Int 0; percentiles := [(f50, f12_3)] |});
    [|reflexivity].
  intros line k v [<-|[<-|[]]]; vm_compute; intros [= <- <-] || discriminate.
  reflexivity.
Defined.

(** ** Which captured numbers the conversion accepts *)

Lemma span_stop (p : ascii -> bool) (s h t : string) (c : ascii) :
  span p s = (h, String c t) -> p c = false.
Proof.
  revert h. induction s as [|a s IH]; intros h; simpl; [discriminate|].
  destruct (p a) eqn:E.
  - destruct (span p s) as [h' t']. intros [= <- ->]. now apply (IH h').
  - now intros [= <- <- <-].
Qed.

Lemma span_all_id (p : ascii -> bool) (h : string) :
  all p h = true -> span p h = (h, EmptyString).
Proof.
  induction h as [|a h IH]; simpl; [reflexivity|].
  intros H. apply andb_true_iff in H as [Ha Hh].
  now rewrite Ha, (IH Hh).
Qed.

Lemma span_app_stop (p : ascii -> bool) (h t : string) (c : ascii) :
  all p h = true -> p c = false ->
  span p (h ++ String c t)%string = (h, String c t).
Proof.
  intros Hh Hc. induction h as [|a h IH]; simpl.
  - now rewrite Hc.
  - simpl in Hh. apply andb_true_iff in Hh as [Ha Hh].
    now rewrite Ha, (IH Hh).
Qed.

Lemma all_app_inv (p : ascii -> bool) (a b : string) :
  all p (a ++ b)%string = true -> all p a = true /\ all p b = true.
Proof.
  induction a as [|x a IH]; simpl; [auto|].
  intros H. apply andb_true_iff in H as [Hx H].
  destruct (IH H) as [Ha Hb]. now rewrite Hx, Ha.
Qed.

Lemma append_nil_r (s : string) : (s ++ EmptyString)%string = s.
Proof. induction s as [|x s IH]; simpl; [reflexivity|now rewrite IH]. Qed.

Lemma plain_not_digit (c : ascii) :
  is_digit_or_dot c = true -> is_digit c = false -> c = "."%char.
Proof.
  unfold is_digit_or_dot. intros H Hd. rewrite Hd in H. simpl in H.
  now apply Ascii.eqb_eq.
Qed.

(** X19: a run of digits and points, as the duration and the throughput
    patterns capture it, converts to a float exactly when it is digits, or
    digits, one point and digits, with one digit at least; any other run
    (two points, a lone point) makes the conversion raise. *)
Theorem captured_number_accepted (group1 : string) :
  all is_digit_or_dot group1 = true ->
  ((exists x, float_field (Some group1) = Ok x) <->
   exists ip fp,
     all is_digit ip = true /\ all is_digit fp = true /\
     (ip <> EmptyString \/ fp <> EmptyString) /\
     ((group1 = ip /\ fp = EmptyString) \/
      group1 = (ip ++ "." ++ fp)%string)).
Proof.
  intros Hall. cbn [float_field]. rewrite (float_plain _ Hall).
  unfold parse_decimal. split.
  - intros [x Hx].
    destruct (span is_digit group1) as [ip r1] eqn:E1.
    pose proof (span_all is_digit group1) as Hip. rewrite E1 in Hip. simpl in Hip.
    pose proof (span_sound _ _ _ _ E1) as Hg.
    destruct r1 as [|c r].
    + exists ip, EmptyString. simpl in Hx.
      destruct ip as [|a ip]; [discriminate|].
      repeat split; auto.
      * left. discriminate.
      * left. split; [|reflexivity].
        rewrite Hg. apply append_nil_r.
    + assert (Hc : c = "."%char).
      { apply plain_not_digit; [|exact (span_stop _ _ _ _ _ E1)].
        rewrite Hg in Hall. apply all_app_inv in Hall as [_ Hall].
        simpl in Hall. now apply andb_true_iff in Hall as [Hc _]. }
      subst c. cbn [span] in Hx.
      destruct (span is_digit r) as [fp r2] eqn:E2.
      pose proof (span_all is_digit r) as Hfp. rewrite E2 in Hfp. simpl in Hfp.
      pose proof (span_sound _ _ _ _ E2) as Hr.
      destruct (is_empty ip && is_empty fp) eqn:Ee; [discriminate|].
      destruct r2 as [|c' r3].
      * exists ip, fp. repeat split; auto.
        -- destruct ip; [|left; discriminate].
           destruct fp; [discriminate|right; discriminate].
        -- right. now rewrite Hg, Hr, append_nil_r.
      * exfalso.
        assert (Hc' : c' = "."%char).
        { apply plain_not_digit; [|exact (span_stop _ _ _ _ _ E2)].
          rewrite Hg in Hall. apply all_app_inv in Hall as [_ Hall].
          cbn [all] in Hall. apply andb_true_iff in Hall as [_ Hall].
          rewrite Hr in Hall. apply all_app_inv in Hall as [_ Hall].
          simpl in Hall. now apply andb_true_iff in Hall as [Hc' _]. }
        subst c'. cbn in Hx. discriminate Hx.
  - intros [ip [fp [Hip [Hfp [Hne [[-> ->]| ->]]]]]].
    + rewrite (span_all_id _ _ Hip). simpl.
      destruct ip as [|a ip]; [destruct Hne; congruence|].
      simpl. eexists. reflexivity.
    + change (ip ++ "." ++ fp)%string with (ip ++ String "." fp)%string.
      rewrite (span_app_stop is_digit ip fp "." Hip eq_refl).
      cbn [span]. rewrite (span_all_id _ _ Hfp).
      destruct (is_empty ip && is_empty fp) eqn:Ee.
      * apply andb_true_iff in Ee as [E1 E2].
        destruct ip, fp; try discriminate. destruct Hne; congruence.
      * simpl. eexists. reflexivity.
Qed.

Lemma captured_number_accepted_witness :
  (exists x, float_field (Some "10.0") = Ok x) /\
  ~ (exists x, float_field (Some "1.2.3") = Ok x).
Proof.
  split.
  - apply (proj2 (captured_number_accepted "10.0" eq_refl)).
    exists "10", "0". repeat split; auto. left. discriminate.
  - intros H.
    apply (proj1 (captured_number_accepted "1.2.3" eq_refl)) in H.
    destruct H as [ip [fp [Hip [Hfp [_ [[<- _]|H]]]]]]; [discriminate Hip|].
    destruct ip as [|a ip]; simpl in H; [discriminate|].
    injection H as <- H.
    destruct ip as [|b ip]; simpl in H.
    + injection H as <-. discriminate Hfp.
    + injection H as <- _. discriminate Hip.
Defined.

(** ** The two passes of the parse *)

(** X20: the mapping of a report comes from the latency block alone, the
    text between the first header and the first footer after it: it is what
    the percentile loop gives on that block, whatever stands elsewhere in
    the text. *)
Theorem report_percentiles_from_block
        (content : string) (w w' : world) (st : stats) :
  parse_content content w = (Ok (Some st), w') ->
  w' = w /\
  exists block,
    latency_section_re content = Some block /\
    parse_percentiles block = Ok (percentiles st).
Proof.
  intros Hparse.
  destruct (latency_section_re content) as [block|] eqn:Es.
  2:{ unfold parse_content in Hparse. rewrite Es in Hparse. discriminate. }
  rewrite (parse_content_section _ _ _ Es) in Hparse.
  unfold build_stats in Hparse.
  destruct (total_requests_field _) as [t|]; [|discriminate].
  destruct (float_field (duration_re content)) as [du|]; [|discriminate].
  destruct (float_field (req_per_sec_re content)) as [rq|]; [|discriminate].
  cbn in Hparse. injection Hparse as <- <-.
  split; [reflexivity|]. exists block. split; [reflexivity|].
  unfold parse_percentiles. now rewrite percentile_loop_fold.
Qed.

Lemma report_percentiles_from_block_witness :
  exists block,
    latency_section_re descending = Some block /\
    parse_percentiles block = Ok [(f90, f45_6); (f50, f12_3)].
Proof.
  exact (proj2 (report_percentiles_from_block descending (world_with descending)
                  (world_with descending)
                  {| total_requests := 0; duration := Int 0;
                     requests_per_sec := Flt f100;
                     percentiles := [(f90, f45_6); (f50, f12_3)] |} eq_refl)).
Defined.
